(** * MTL2 touchscreen driver: a shallow embedding of
      [mtl2_touchscreen_driver_v2.c] and the properties of its coordinate
      decoder, its interrupt handler and its attach / detach sequences. *)

From Stdlib Require Import ZArith List String Bool Lia.
Import ListNotations.

Local Open Scope string_scope.
Local Open Scope list_scope.
Local Open Scope Z_scope.

(* ================================================================== *)
(** ** Fixed-width integers *)

(** Conversion of a C integer to [u8] / [u16]: reduction modulo [2^w]. *)
Definition u8 (z : Z) : Z := z mod 256.
Definition u16 (z : Z) : Z := z mod 65536.

Definition is_u8 (z : Z) : Prop := 0 <= z < 256.

(* ================================================================== *)
(** ** Bit manipulation macros and constants *)

(** [#define BIT_CHECK(a, b) (!!((a) & (1UL << (b))))] *)
Definition BIT_CHECK (a b : Z) : bool :=
  negb (Z.land a (Z.shiftl 1 b) =? 0).

(** [#define BIT_SET(a, b) ((a) |= (1UL << (b)))]; the only use site
    assigns to a [u16] lvalue, hence the narrowing of the stored value. *)
Definition BIT_SET (a b : Z) : Z :=
  u16 (Z.lor a (Z.shiftl 1 b)).

Definition DEVICE_NAME : string := "mtl2_touchscreen".
Definition DEVICE_ADDRESS : Z := 0x38.
Definition INT_GPIO_PIN : Z := 4.
Definition MTL2_MAX_X : Z := 480.
Definition MTL2_MAX_Y : Z := 800.

(** Register map. *)
Definition DEVICE_MODE : Z := 0x00.
Definition GEST_ID : Z := 0x01.
Definition TD_STATUS : Z := 0x02.
Definition TOUCH1_XH : Z := 0x03.
Definition TOUCH1_XL : Z := 0x04.
Definition TOUCH1_YH : Z := 0x05.
Definition TOUCH1_YL : Z := 0x06.
Definition TOUCH2_XH : Z := 0x09.
Definition TOUCH2_XL : Z := 0x0A.
Definition TOUCH2_YH : Z := 0x0B.
Definition TOUCH2_YL : Z := 0x0C.
Definition TOUCH3_XH : Z := 0x0F.
Definition TOUCH3_XL : Z := 0x10.
Definition TOUCH3_YH : Z := 0x11.
Definition TOUCH3_YL : Z := 0x12.
Definition TOUCH4_XH : Z := 0x15.
Definition TOUCH4_XL : Z := 0x16.
Definition TOUCH4_YH : Z := 0x17.
Definition TOUCH4_YL : Z := 0x18.
Definition TOUCH5_XH : Z := 0x1B.
Definition TOUCH5_XL : Z := 0x1C.
Definition TOUCH5_YH : Z := 0x1D.
Definition TOUCH5_YL : Z := 0x1E.

(** The registers of touch slots 2 to 5. *)
Definition other_slot_registers : list Z :=
  [ TOUCH2_XH; TOUCH2_XL; TOUCH2_YH; TOUCH2_YL;
    TOUCH3_XH; TOUCH3_XL; TOUCH3_YH; TOUCH3_YL;
    TOUCH4_XH; TOUCH4_XL; TOUCH4_YH; TOUCH4_YL;
    TOUCH5_XH; TOUCH5_XL; TOUCH5_YH; TOUCH5_YL ].

(* ================================================================== *)
(** ** The coordinate decoder *)

(** [for(i = lo; i < lo + n; i++) acc = body(i, acc);] *)
Fixpoint for_loop (i : Z) (n : nat) (body : Z -> Z -> Z) (acc : Z) : Z :=
  match n with
  | O => acc
  | S n' => for_loop (i + 1) n' body (body i acc)
  end.

(** [static u16 create_coord(u8 msb, u8 lsb)] *)
Definition create_coord (msb lsb : Z) : Z :=
  let coord := 0 in
  let coord :=
    for_loop 0 8
      (fun i coord => if BIT_CHECK lsb i then BIT_SET coord i else coord)
      coord in
  let coord :=
    for_loop 8 4
      (fun i coord => if BIT_CHECK msb (i - 8) then BIT_SET coord i else coord)
      coord in
  coord.

(* ================================================================== *)
(** ** The kernel interface seen by the driver *)

(** Kernel objects ([struct i2c_client *], [struct input_dev *],
    [struct i2c_adapter *]) are opaque handles; [NULL] is the null handle. *)
Definition handle := Z.
Definition NULL : handle := 0.

(** Symbolic kernel constants used by the driver. *)
Inductive abs_axis := ABS_X | ABS_Y.
Inductive key_code := BTN_TOUCH.
Inductive ev_type := EV_KEY.
Inductive input_prop := INPUT_PROP_DIRECT.
Inductive bus_type := BUS_I2C.
Inductive irq_flags := IRQF_TRIGGER_RISING.
Inductive i2c_func := I2C_FUNC_I2C.
Inductive irqreturn_t := IRQ_NONE | IRQ_HANDLED.

(** Error numbers of [errno-base.h]. *)
Definition ENXIO : Z := 6.
Definition ENOMEM : Z := 12.
Definition ENODEV : Z := 19.

(** One interaction with the kernel.  A constructor carries the arguments
    the driver passes and, for a function whose result the C code can see,
    that result as last field [ret]. *)
Inductive event :=
| i2c_smbus_read_byte_data (client : handle) (command : Z) (ret : Z)
| input_report_abs (dev : handle) (code : abs_axis) (value : Z)
| input_report_key (dev : handle) (code : key_code) (value : Z)
| input_sync (dev : handle)
| printk (fmt : string) (args : list Z)
| dev_err (fmt : string) (args : list Z)
| gpio_request (gpio : Z) (ret : Z)
| gpio_to_irq (gpio : Z) (ret : Z)
| devm_request_irq (irq : Z) (flags : irq_flags) (name : string) (ret : Z)
| i2c_check_functionality (func : i2c_func) (ret : Z)
| devm_input_allocate_device (ret : handle)
| input_set_name (dev : handle) (name : string)
| input_set_bustype (dev : handle) (bus : bus_type)
| input_set_parent (dev : handle) (client : handle)
| set_bit_propbit (prop : input_prop) (dev : handle)
| input_set_capability (dev : handle) (type : ev_type) (code : key_code)
| input_set_abs_params (dev : handle) (axis : abs_axis) (min max fuzz flat : Z)
| input_set_drvdata (dev : handle)
| input_register_device (dev : handle) (ret : Z)
| i2c_get_adapter (nr : Z) (ret : handle)
| i2c_new_device (adap : handle) (name : string) (addr : Z) (ret : handle)
| i2c_add_driver (name : string) (ret : Z)
| disable_irq (irq : Z)
| gpio_free (gpio : Z)
| input_unregister_device (dev : handle)
| i2c_unregister_device (client : handle)
| i2c_del_driver (name : string).

Definition trace := list event.

(** The platform: what each value-returning kernel function answers, given
    everything that happened so far and the arguments of the call. *)
Record kernel := {
  k_i2c_smbus_read_byte_data : trace -> handle -> Z -> Z;
  k_gpio_request : trace -> Z -> Z;
  k_gpio_to_irq : trace -> Z -> Z;
  k_devm_request_irq : trace -> Z -> Z;
  k_i2c_check_functionality : trace -> handle -> Z;
  k_devm_input_allocate_device : trace -> handle;
  k_input_register_device : trace -> handle -> Z;
  k_i2c_get_adapter : trace -> Z -> handle;
  k_i2c_new_device : trace -> handle -> handle;
  k_i2c_add_driver : trace -> Z
}.

(** The driver's globals: [struct mtl2_touchscreen_data data] and
    [static int mtl2_irq = -1]. *)
Record globals := {
  data_client : handle;
  data_input : handle;
  mtl2_irq : Z
}.

Definition initial_globals : globals :=
  {| data_client := NULL; data_input := NULL; mtl2_irq := -1 |}.

Definition set_data_client (g : globals) (c : handle) : globals :=
  {| data_client := c; data_input := data_input g; mtl2_irq := mtl2_irq g |}.
Definition set_data_input (g : globals) (i : handle) : globals :=
  {| data_client := data_client g; data_input := i; mtl2_irq := mtl2_irq g |}.
Definition set_mtl2_irq (g : globals) (n : Z) : globals :=
  {| data_client := data_client g; data_input := data_input g; mtl2_irq := n |}.

(* ================================================================== *)
(** ** A monad for driver code

    A computation receives the history of kernel interactions so far
    (oldest first) and the globals; it yields a value, the new globals and
    the history extended by the events it produced itself. *)

Definition M (A : Type) : Type := trace -> globals -> A * globals * trace.

Definition ret {A} (a : A) : M A := fun h g => (a, g, h).

Definition bind {A B} (m : M A) (f : A -> M B) : M B :=
  fun h g => let '(a, g1, h1) := m h g in f a h1 g1.

Notation "x <- m ;; f" := (bind m (fun x => f))
  (at level 61, m at next level, right associativity).
Notation "m ;;; f" := (bind m (fun _ => f))
  (at level 61, right associativity).

(** A call whose result the code cannot see. *)
Definition emit (e : event) : M unit := fun h g => (tt, g, h ++ [e]).

(** A call answered by the platform. *)
Definition ask (answer : trace -> Z) (e : Z -> event) : M Z :=
  fun h g => let r := answer h in (r, g, h ++ [e r]).

Definition get : M globals := fun h g => (g, g, h).
Definition put (g : globals) : M unit := fun h _ => (tt, g, h).

Definition result_of {A} (x : A * globals * trace) : A := fst (fst x).
Definition globals_of {A} (x : A * globals * trace) : globals := snd (fst x).
Definition trace_of {A} (x : A * globals * trace) : trace := snd x.

(* ================================================================== *)
(** ** The driver *)

Section Driver.

Variable k : kernel.

(** [static irqreturn_t mtl2_touchscreen_irq(int irq, void* dev_id)] *)
Definition mtl2_touchscreen_irq (irq : Z) (dev_id : handle) : M irqreturn_t :=
  data <- get ;;
  r <- ask (fun h => k_i2c_smbus_read_byte_data k h (data_client data) TOUCH1_XH)
           (i2c_smbus_read_byte_data (data_client data) TOUCH1_XH) ;;
  let x_h := u8 r in
  r <- ask (fun h => k_i2c_smbus_read_byte_data k h (data_client data) TOUCH1_XL)
           (i2c_smbus_read_byte_data (data_client data) TOUCH1_XL) ;;
  let x_l := u8 r in
  let x := create_coord x_h x_l in
  r <- ask (fun h => k_i2c_smbus_read_byte_data k h (data_client data) TOUCH1_YH)
           (i2c_smbus_read_byte_data (data_client data) TOUCH1_YH) ;;
  let y_h := u8 r in
  r <- ask (fun h => k_i2c_smbus_read_byte_data k h (data_client data) TOUCH1_YL)
           (i2c_smbus_read_byte_data (data_client data) TOUCH1_YL) ;;
  let y_l := u8 r in
  let y := create_coord y_h y_l in
  emit (input_report_abs (data_input data) ABS_X x) ;;;
  emit (input_report_abs (data_input data) ABS_Y y) ;;;
  emit (input_report_key (data_input data) BTN_TOUCH 1) ;;;
  emit (input_sync (data_input data)) ;;;
  emit (printk "%d, %d\n" [x; y]) ;;;
  ret IRQ_HANDLED.

(** [static int mtl2_touchscreen_probe(struct i2c_client *client, ...)];
    [adapter] stands for [client->adapter], the unused [id] is left out.
    The result is [Some v] for [return v;] and [None] when control reaches
    the closing brace, where the function returns no value. *)
Definition mtl2_touchscreen_probe (client adapter : handle) : M (option Z) :=
  r <- ask (fun h => k_gpio_request k h INT_GPIO_PIN)
           (gpio_request INT_GPIO_PIN) ;;
  if negb (r =? 0) then
    emit (dev_err "GPIO request failure." []) ;;;
    ret (Some (-1))
  else
  r <- ask (fun h => k_gpio_to_irq k h INT_GPIO_PIN)
           (gpio_to_irq INT_GPIO_PIN) ;;
  g <- get ;;
  put (set_mtl2_irq g r) ;;;
  if r <? 0 then
    emit (dev_err "GPIO mapping to IQR failure." []) ;;;
    ret (Some (-1))
  else
  g <- get ;;
  emit (printk "Mapped int %d\n" [mtl2_irq g]) ;;;
  r <- ask (fun h => k_devm_request_irq k h (mtl2_irq g))
           (devm_request_irq (mtl2_irq g) IRQF_TRIGGER_RISING "mtl2_irq") ;;
  if negb (r =? 0) then
    emit (dev_err "IRQ request failure.\n" []) ;;;
    ret (Some (- ENODEV))
  else
  r <- ask (fun h => k_i2c_check_functionality k h adapter)
           (i2c_check_functionality I2C_FUNC_I2C) ;;
  if r =? 0 then
    emit (dev_err "i2c_check_functionality error\n" []) ;;;
    ret (Some (- ENXIO))
  else
  input <- ask (k_devm_input_allocate_device k) devm_input_allocate_device ;;
  if input =? NULL then
    ret (Some (- ENOMEM))
  else
  g <- get ;;
  put (set_data_input g input) ;;;
  emit (input_set_name input "MTL2 Touchscreen") ;;;
  emit (input_set_bustype input BUS_I2C) ;;;
  emit (input_set_parent input client) ;;;
  emit (set_bit_propbit INPUT_PROP_DIRECT input) ;;;
  emit (input_set_capability input EV_KEY BTN_TOUCH) ;;;
  emit (input_set_abs_params input ABS_X 0 MTL2_MAX_X 0 0) ;;;
  emit (input_set_abs_params input ABS_Y 0 MTL2_MAX_Y 0 0) ;;;
  emit (input_set_drvdata input) ;;;
  g <- get ;;
  error <- ask (fun h => k_input_register_device k h (data_input g))
               (input_register_device (data_input g)) ;;
  if negb (error =? 0) then
    emit (dev_err "Failed to register input device. Error code: %d\n" [error]) ;;;
    ret (Some error)
  else
  ret None.

(** [static int __init mtl2_touchscreen_init(void)] *)
Definition mtl2_touchscreen_init : M (option Z) :=
  emit (printk "Inserting module." []) ;;;
  i2c_adapt <- ask (fun h => k_i2c_get_adapter k h 1) (i2c_get_adapter 1) ;;
  c <- ask (fun h => k_i2c_new_device k h i2c_adapt)
           (i2c_new_device i2c_adapt DEVICE_NAME DEVICE_ADDRESS) ;;
  g <- get ;;
  put (set_data_client g c) ;;;
  _ <- ask (k_i2c_add_driver k) (i2c_add_driver DEVICE_NAME) ;;
  ret (Some 0).

(** [static int __exit mtl2_touchscreen_exit(void)]; it has no [return]. *)
Definition mtl2_touchscreen_exit : M (option Z) :=
  emit (printk "Removing module." []) ;;;
  g <- get ;;
  emit (disable_irq (mtl2_irq g)) ;;;
  emit (gpio_free INT_GPIO_PIN) ;;;
  emit (input_unregister_device (data_input g)) ;;;
  emit (i2c_unregister_device (data_client g)) ;;;
  emit (i2c_del_driver DEVICE_NAME) ;;;
  ret None.

(** [n] interrupt episodes, one after the other. *)
Fixpoint irq_episodes (n : nat) : M unit :=
  match n with
  | O => ret tt
  | S n' => g <- get ;; mtl2_touchscreen_irq (mtl2_irq g) 0 ;;; irq_episodes n'
  end.

End Driver.

(* ================================================================== *)
(** ** Observations on traces *)

(** The register offsets of the bus reads of a trace, in order. *)
Fixpoint bus_reads (tr : trace) : list Z :=
  match tr with
  | [] => []
  | i2c_smbus_read_byte_data _ reg _ :: tr' => reg :: bus_reads tr'
  | _ :: tr' => bus_reads tr'
  end.

(** The events that reach the event sink during sampling. *)
Definition is_sink_report (e : event) : bool :=
  match e with
  | input_report_abs _ _ _ | input_report_key _ _ _ | input_sync _ => true
  | _ => false
  end.

Definition sink_reports (tr : trace) : trace := filter is_sink_report tr.

(** A release is a key report whose value is 0. *)
Definition is_release (e : event) : bool :=
  match e with
  | input_report_key _ _ v => v =? 0
  | _ => false
  end.

(** Logging is not an interaction with the device's resources. *)
Definition is_log (e : event) : bool :=
  match e with
  | printk _ _ | dev_err _ _ => true
  | _ => false
  end.

Definition error_log (tr : trace) : list string :=
  flat_map (fun e => match e with dev_err m _ => [m] | _ => [] end) tr.

(** The calls that give a resource back to the platform. *)
Definition is_teardown (e : event) : bool :=
  match e with
  | disable_irq _ | gpio_free _ | input_unregister_device _
  | i2c_unregister_device _ | i2c_del_driver _ => true
  | _ => false
  end.

(** The teardown calls on the resources of the touch device proper: the
    interrupt line, the GPIO pin, the event-sink device and the bus client.
    [i2c_del_driver] undoes the driver-table registration of [init]. *)
Definition is_device_release (e : event) : bool :=
  match e with
  | disable_irq _ | gpio_free _ | input_unregister_device _
  | i2c_unregister_device _ => true
  | _ => false
  end.

(** The six ways the attach sequence can fail. *)
Inductive attach_failure :=
| ResourceBusy
| InterruptMappingFailure
| InstallError
| UnsupportedBus
| AllocationFailure
| RegistrationError.

(** The failure, if any, that an answer of the platform amounts to; the
    tests are those [mtl2_touchscreen_probe] applies to the answer. *)
Definition failed_step (e : event) : option attach_failure :=
  match e with
  | gpio_request _ r => if r =? 0 then None else Some ResourceBusy
  | gpio_to_irq _ r => if r <? 0 then Some InterruptMappingFailure else None
  | devm_request_irq _ _ _ r => if r =? 0 then None else Some InstallError
  | i2c_check_functionality _ r => if r =? 0 then Some UnsupportedBus else None
  | devm_input_allocate_device r =>
      if r =? NULL then Some AllocationFailure else None
  | input_register_device _ r =>
      if r =? 0 then None else Some RegistrationError
  | _ => None
  end.

Definition attach_failures (tr : trace) : list attach_failure :=
  flat_map (fun e => match failed_step e with Some f => [f] | None => [] end) tr.

(** What follows the first failed step in a trace. *)
Fixpoint after_failure (tr : trace) : trace :=
  match tr with
  | [] => []
  | e :: tr' =>
      match failed_step e with
      | Some _ => tr'
      | None => after_failure tr'
      end
  end.

(** The resources the platform holds on behalf of the driver. *)
Record resources := {
  gpio_reserved : list Z;
  irq_handlers : list Z;
  sinks_registered : list handle
}.

Definition no_resources : resources :=
  {| gpio_reserved := []; irq_handlers := []; sinks_registered := [] |}.

Definition remove_Z (x : Z) (l : list Z) : list Z :=
  filter (fun y => negb (y =? x)) l.

(** Effect of one event on the held resources.  Nothing the driver calls
    removes an installed handler: [disable_irq] only masks the line. *)
Definition account (r : resources) (e : event) : resources :=
  match e with
  | gpio_request pin ret =>
      if ret =? 0 then
        {| gpio_reserved := pin :: gpio_reserved r;
           irq_handlers := irq_handlers r;
           sinks_registered := sinks_registered r |}
      else r
  | gpio_free pin =>
      {| gpio_reserved := remove_Z pin (gpio_reserved r);
         irq_handlers := irq_handlers r;
         sinks_registered := sinks_registered r |}
  | devm_request_irq irq _ _ ret =>
      if ret =? 0 then
        {| gpio_reserved := gpio_reserved r;
           irq_handlers := irq :: irq_handlers r;
           sinks_registered := sinks_registered r |}
      else r
  | input_register_device dev ret =>
      if ret =? 0 then
        {| gpio_reserved := gpio_reserved r;
           irq_handlers := irq_handlers r;
           sinks_registered := dev :: sinks_registered r |}
      else r
  | input_unregister_device dev =>
      {| gpio_reserved := gpio_reserved r;
         irq_handlers := irq_handlers r;
         sinks_registered := remove_Z dev (sinks_registered r) |}
  | _ => r
  end.

Definition held (r : resources) (tr : trace) : resources :=
  fold_left account tr r.

(** The events a run started at history [h] added to it. *)
Definition emitted {A} (h : trace) (x : A * globals * trace) : trace :=
  skipn (List.length h) (trace_of x).

(** What the platform answers to the four bus reads of an interrupt episode
    that starts at history [h]: the [s32] results for X-high, X-low, Y-high
    and Y-low, each read seeing the reads before it. *)
Definition episode_answers (k : kernel) (h : trace) (g : globals)
  : Z * Z * Z * Z :=
  let c := data_client g in
  let xh := k_i2c_smbus_read_byte_data k h c TOUCH1_XH in
  let h := h ++ [i2c_smbus_read_byte_data c TOUCH1_XH xh] in
  let xl := k_i2c_smbus_read_byte_data k h c TOUCH1_XL in
  let h := h ++ [i2c_smbus_read_byte_data c TOUCH1_XL xl] in
  let yh := k_i2c_smbus_read_byte_data k h c TOUCH1_YH in
  let h := h ++ [i2c_smbus_read_byte_data c TOUCH1_YH yh] in
  let yl := k_i2c_smbus_read_byte_data k h c TOUCH1_YL in
  (xh, xl, yh, yl).

(** The return value and the error messages with which
    [mtl2_touchscreen_probe] leaves on each failure; [code] is the answer
    of [input_register_device]. *)
Definition attach_report (f : attach_failure) (code : Z)
  : option Z * list string :=
  match f with
  | ResourceBusy => (Some (-1), ["GPIO request failure."])
  | InterruptMappingFailure => (Some (-1), ["GPIO mapping to IQR failure."])
  | InstallError => (Some (- ENODEV), ["IRQ request failure.\n"])
  | UnsupportedBus => (Some (- ENXIO), ["i2c_check_functionality error\n"])
  | AllocationFailure => (Some (- ENOMEM), [])
  | RegistrationError =>
      (Some code, ["Failed to register input device. Error code: %d\n"])
  end.

(** Sample platforms. *)

(** Every call succeeds; every bus read answers [byte]. *)
Definition k_ok (byte : Z) : kernel :=
  {| k_i2c_smbus_read_byte_data := fun _ _ _ => byte;
     k_gpio_request := fun _ _ => 0;
     k_gpio_to_irq := fun _ _ => 170;
     k_devm_request_irq := fun _ _ => 0;
     k_i2c_check_functionality := fun _ _ => 1;
     k_devm_input_allocate_device := fun _ => 2;
     k_input_register_device := fun _ _ => 0;
     k_i2c_get_adapter := fun _ _ => 3;
     k_i2c_new_device := fun _ _ => 1;
     k_i2c_add_driver := fun _ => 0 |}.

(** The bus answers from a register file. *)
Definition k_regs (regs : Z -> Z) : kernel :=
  {| k_i2c_smbus_read_byte_data := fun _ _ reg => regs reg;
     k_gpio_request := fun _ _ => 0;
     k_gpio_to_irq := fun _ _ => 170;
     k_devm_request_irq := fun _ _ => 0;
     k_i2c_check_functionality := fun _ _ => 1;
     k_devm_input_allocate_device := fun _ => 2;
     k_input_register_device := fun _ _ => 0;
     k_i2c_get_adapter := fun _ _ => 3;
     k_i2c_new_device := fun _ _ => 1;
     k_i2c_add_driver := fun _ => 0 |}.

(** The answers of the six fallible attach steps, the rest as [k_ok]. *)
Definition k_attach (req map install func : Z) (alloc : handle) (reg : Z)
  : kernel :=
  {| k_i2c_smbus_read_byte_data := fun _ _ _ => 0;
     k_gpio_request := fun _ _ => req;
     k_gpio_to_irq := fun _ _ => map;
     k_devm_request_irq := fun _ _ => install;
     k_i2c_check_functionality := fun _ _ => func;
     k_devm_input_allocate_device := fun _ => alloc;
     k_input_register_device := fun _ _ => reg;
     k_i2c_get_adapter := fun _ _ => 3;
     k_i2c_new_device := fun _ _ => 1;
     k_i2c_add_driver := fun _ => 0 |}.

(** A panel that reports its largest raw sample in every register pair. *)
Definition k_full_scale : kernel :=
  k_regs (fun reg => if (reg =? TOUCH1_XH) || (reg =? TOUCH1_YH)
                     then 0x0F else 0xFF).

(** Module load, attach, then one interrupt. *)
Definition bring_up_and_touch (k : kernel) : M irqreturn_t :=
  mtl2_touchscreen_init k ;;;
  g <- get ;;
  mtl2_touchscreen_probe k (data_client g) 3 ;;;
  g <- get ;;
  mtl2_touchscreen_irq k (mtl2_irq g) NULL.

(** The globals once [init] and a successful [probe] have run on [k_ok]. *)
Definition armed_globals : globals :=
  {| data_client := 1; data_input := 2; mtl2_irq := 170 |}.

(* ================================================================== *)
(** ** Facts about the macros *)

Lemma BIT_CHECK_testbit (a b : Z) :
  0 <= b -> BIT_CHECK a b = Z.testbit a b.
Proof.
  intros Hb. unfold BIT_CHECK.
  destruct (Z.testbit a b) eqn:E.
  - apply negb_true_iff, Z.eqb_neq. intros H0.
    assert (T : Z.testbit (Z.land a (Z.shiftl 1 b)) b = true).
    { rewrite Z.land_spec, E, Z.shiftl_spec by lia.
      now rewrite Z.sub_diag. }
    rewrite H0, Z.bits_0 in T. discriminate.
  - apply negb_false_iff, Z.eqb_eq. apply Z.bits_inj'. intros j Hj.
    rewrite Z.land_spec, Z.bits_0, Z.shiftl_spec by lia.
    destruct (Z.eq_dec j b) as [->|Hne].
    + now rewrite E.
    + rewrite andb_false_iff. right.
      destruct (Z_lt_ge_dec j b).
      * apply Z.testbit_neg_r. lia.
      * apply Z.bits_above_log2; simpl; lia.
Qed.

Lemma u16_bits_high (a j : Z) : 16 <= j -> Z.testbit (u16 a) j = false.
Proof.
  intros Hj. unfold u16. change 65536 with (2 ^ 16).
  apply Z.mod_pow2_bits_high. lia.
Qed.

Lemma u16_bits_low (a j : Z) : j < 16 -> Z.testbit (u16 a) j = Z.testbit a j.
Proof.
  intros Hj. unfold u16. change 65536 with (2 ^ 16).
  now apply Z.mod_pow2_bits_low.
Qed.

Lemma bit_of_one (j b : Z) :
  0 <= b -> 0 <= j -> Z.testbit (Z.shiftl 1 b) j = (j =? b).
Proof.
  intros Hb Hj. rewrite Z.shiftl_spec by lia.
  destruct (Z.eqb_spec j b) as [->|Hne].
  - now rewrite Z.sub_diag.
  - destruct (Z_lt_ge_dec j b).
    + apply Z.testbit_neg_r. lia.
    + apply Z.bits_above_log2; simpl; lia.
Qed.

(** Bits of a [u16] after [BIT_SET]. *)
Lemma BIT_SET_bits (a b j : Z) :
  0 <= b < 16 -> 0 <= j ->
  (forall i, 16 <= i -> Z.testbit a i = false) ->
  Z.testbit (BIT_SET a b) j = Z.testbit a j || (j =? b).
Proof.
  intros Hb Hj Hhi. unfold BIT_SET.
  destruct (Z_lt_ge_dec j 16).
  - rewrite u16_bits_low, Z.lor_spec, bit_of_one by lia. reflexivity.
  - rewrite u16_bits_high, Hhi by lia.
    symmetry. apply Z.eqb_neq. lia.
Qed.

Section Loop.

(** One loop of [create_coord] copies bits of [src] to positions shifted
    up by [off]. *)
Variables (src off : Z).

Lemma copy_bit_bits (i acc j : Z) :
  off <= i < 16 -> 0 <= off -> 0 <= j ->
  (forall t, 16 <= t -> Z.testbit acc t = false) ->
  Z.testbit (if BIT_CHECK src (i - off) then BIT_SET acc i else acc) j
  = Z.testbit acc j || ((j =? i) && Z.testbit src (j - off)).
Proof.
  intros Hi Ho Hj Hhi.
  rewrite BIT_CHECK_testbit by lia.
  destruct (Z.eqb_spec j i) as [->|Hne].
  - destruct (Z.testbit src (i - off)).
    + rewrite BIT_SET_bits, Z.eqb_refl by (auto; lia). reflexivity.
    + now rewrite orb_false_r.
  - destruct (Z.testbit src (i - off)).
    + rewrite BIT_SET_bits by (auto; lia).
      replace (j =? i) with false by (symmetry; apply Z.eqb_neq; lia).
      reflexivity.
    + now rewrite orb_false_r.
Qed.

(** Invariant of the loop: after [n] rounds from index [lo], the bits
    [lo .. lo + n - 1] of the accumulator have received those of [src]. *)
Lemma for_loop_bits (n : nat) :
  forall lo acc,
    0 <= off <= lo -> lo + Z.of_nat n <= 16 ->
    (forall t, 16 <= t -> Z.testbit acc t = false) ->
    forall j, 0 <= j ->
      Z.testbit
        (for_loop lo n
           (fun i coord =>
              if BIT_CHECK src (i - off) then BIT_SET coord i else coord)
           acc) j
      = Z.testbit acc j
        || ((lo <=? j) && (j <? lo + Z.of_nat n) && Z.testbit src (j - off)).
Proof.
  induction n as [|n IH]; intros lo acc Hlo Hn Hhi j Hj.
  - simpl for_loop.
    replace ((lo <=? j) && (j <? lo + Z.of_nat 0)) with false.
    + now rewrite orb_false_r.
    + symmetry. apply andb_false_iff.
      destruct (Z_lt_ge_dec j lo); [left; apply Z.leb_gt | right; apply Z.ltb_ge];
        lia.
  - simpl for_loop. rewrite IH; try lia.
    + rewrite copy_bit_bits by (auto; lia).
      rewrite <- orb_assoc. f_equal.
      destruct (Z.eqb_spec j lo) as [->|Hne].
      * replace (lo + 1 <=? lo) with false by (symmetry; apply Z.leb_gt; lia).
        replace (lo <=? lo) with true by (symmetry; apply Z.leb_le; lia).
        replace (lo <? lo + Z.of_nat (S n)) with true
          by (symmetry; apply Z.ltb_lt; lia).
        simpl. now rewrite orb_false_r.
      * simpl.
        replace (lo + 1 <=? j) with (lo <=? j)
          by (destruct (Z.leb_spec lo j), (Z.leb_spec (lo + 1) j); lia).
        replace (j <? lo + 1 + Z.of_nat n) with (j <? lo + Z.of_nat (S n))
          by (f_equal; lia).
        reflexivity.
    + intros t Ht. rewrite copy_bit_bits by (auto; lia).
      rewrite Hhi by lia.
      replace (t =? lo) with false by (symmetry; apply Z.eqb_neq; lia).
      reflexivity.
Qed.

End Loop.

Lemma for_loop_ext (f g : Z -> Z -> Z) (n : nat) :
  (forall i a, f i a = g i a) ->
  forall lo acc, for_loop lo n f acc = for_loop lo n g acc.
Proof.
  intros E. induction n as [|n IH]; intros lo acc; simpl.
  - reflexivity.
  - now rewrite E, IH.
Qed.

(* ================================================================== *)
(** ** The decoder, bit by bit *)

Lemma u8_bits_high (a j : Z) : is_u8 a -> 8 <= j -> Z.testbit a j = false.
Proof.
  intros Ha Hj. destruct (Z.eq_dec a 0) as [->|Hne].
  - apply Z.bits_0.
  - apply Z.bits_above_log2; [unfold is_u8 in Ha; lia|].
    apply Z.lt_le_trans with 8; [|lia].
    apply Z.log2_lt_pow2; unfold is_u8 in Ha; simpl; lia.
Qed.

(** Bit [j] of the result is bit [j] of [lsb] below 8 and bit [j - 8] of
    [msb] from 8 to 11; all other bits are clear. *)
Lemma create_coord_bits (msb lsb j : Z) :
  0 <= j ->
  Z.testbit (create_coord msb lsb) j
  = ((j <? 8) && Z.testbit lsb j)
    || ((8 <=? j) && (j <? 12) && Z.testbit msb (j - 8)).
Proof.
  intros Hj. unfold create_coord.
  assert (L : forall t, 0 <= t ->
            Z.testbit
              (for_loop 0 8
                 (fun i coord =>
                    if BIT_CHECK lsb i then BIT_SET coord i else coord) 0) t
            = (t <? 8) && Z.testbit lsb t).
  { intros t Ht.
    rewrite for_loop_ext with
      (g := fun i coord =>
              if BIT_CHECK lsb (i - 0) then BIT_SET coord i else coord)
      by (intros; now rewrite Z.sub_0_r).
    rewrite (for_loop_bits lsb 0 8 0 0) by (try lia; intros; apply Z.bits_0).
    rewrite Z.bits_0, Z.sub_0_r. simpl.
    replace (0 <=? t) with true by (symmetry; apply Z.leb_le; lia).
    reflexivity. }
  rewrite (for_loop_bits msb 8 4 8) by
    (try lia; intros t Ht; rewrite L by lia;
     replace (t <? 8) with false by (symmetry; apply Z.ltb_ge; lia);
     reflexivity).
  rewrite L by lia. reflexivity.
Qed.

Lemma create_coord_low (msb lsb : Z) :
  is_u8 lsb -> Z.land (create_coord msb lsb) 0xFF = lsb.
Proof.
  intros Hl. apply Z.bits_inj'. intros j Hj.
  rewrite Z.land_spec, create_coord_bits by lia.
  change 0xFF with (Z.ones 8). rewrite Z.testbit_ones_nonneg by lia.
  destruct (Z.ltb_spec j 8).
  - replace (8 <=? j) with false by (symmetry; apply Z.leb_gt; lia).
    simpl. now rewrite orb_false_r, andb_true_r.
  - rewrite (u8_bits_high lsb j) by (auto; lia).
    now rewrite andb_false_r.
Qed.

Lemma create_coord_high (msb lsb : Z) :
  is_u8 lsb -> Z.shiftr (create_coord msb lsb) 8 = Z.land msb 0x0F.
Proof.
  intros Hl. apply Z.bits_inj'. intros j Hj.
  rewrite Z.shiftr_spec, Z.land_spec, create_coord_bits by lia.
  change 0x0F with (Z.ones 4). rewrite Z.testbit_ones_nonneg by lia.
  replace (j + 8 - 8) with j by lia.
  replace (j + 8 <? 8) with false by (symmetry; apply Z.ltb_ge; lia).
  replace (8 <=? j + 8) with true by (symmetry; apply Z.leb_le; lia).
  replace (j + 8 <? 12) with (j <? 4)
    by (destruct (Z.ltb_spec j 4), (Z.ltb_spec (j + 8) 12); lia).
  simpl. apply andb_comm.
Qed.

Lemma land_0x0F_small (h : Z) : 0 <= h < 16 -> Z.land h 0x0F = h.
Proof.
  intros Hh. change 0x0F with (Z.ones 4).
  rewrite Z.land_ones by lia. apply Z.mod_small. simpl. lia.
Qed.

(** The result always fits in 12 bits. *)
Lemma create_coord_range (msb lsb : Z) : 0 <= create_coord msb lsb <= 4095.
Proof.
  assert (Hi : forall j, 12 <= j -> Z.testbit (create_coord msb lsb) j = false).
  { intros j Hj. rewrite create_coord_bits by lia.
    replace (j <? 8) with false by (symmetry; apply Z.ltb_ge; lia).
    replace (j <? 12) with false by (symmetry; apply Z.ltb_ge; lia).
    now rewrite andb_false_r. }
  assert (N : 0 <= create_coord msb lsb).
  { apply Z.bits_iff_nonneg_ex. exists 12. intros j Hj. apply Hi. lia. }
  split; [exact N|].
  destruct (Z.eq_dec (create_coord msb lsb) 0) as [->|Hne]; [lia|].
  assert (B : create_coord msb lsb < 2 ^ 12); [|simpl in B; lia].
  apply Z.log2_lt_pow2; [lia|].
  destruct (Z_lt_ge_dec (Z.log2 (create_coord msb lsb)) 12) as [|Hge];
    [assumption|exfalso].
  assert (T : Z.testbit (create_coord msb lsb)
                (Z.log2 (create_coord msb lsb)) = true)
    by (apply Z.bit_log2; lia).
  rewrite Hi in T by lia. discriminate.
Qed.

(* ================================================================== *)
(** ** Properties of the decoder *)

(** C1: for every pair of bytes [high], [low], [create_coord high low]
    is [low | ((high & 0x0F) << 8)]; in particular it maps (0x01, 0xA3) to
    0x1A3 = 419 and (0xFF, 0x00) to 0x0F00 = 3840. *)
Theorem create_coord_packed (high low : Z) :
  is_u8 high -> is_u8 low ->
  create_coord high low = Z.lor low (Z.shiftl (Z.land high 0x0F) 8)
  /\ create_coord 0x01 0xA3 = 419
  /\ create_coord 0xFF 0x00 = 3840.
Proof.
  intros Hh Hl. split; [|split; reflexivity].
  apply Z.bits_inj'. intros j Hj.
  rewrite create_coord_bits, Z.lor_spec, Z.shiftl_spec, Z.land_spec by lia.
  destruct (Z.ltb_spec j 8).
  - replace (8 <=? j) with false by (symmetry; apply Z.leb_gt; lia).
    rewrite (Z.testbit_neg_r high), (Z.testbit_neg_r 0x0F) by lia.
    simpl. now rewrite orb_false_r.
  - replace (8 <=? j) with true by (symmetry; apply Z.leb_le; lia).
    rewrite (u8_bits_high low j) by (auto; lia).
    change 0x0F with (Z.ones 4). rewrite Z.testbit_ones_nonneg by lia.
    replace (j - 8 <? 4) with (j <? 12)
      by (destruct (Z.ltb_spec j 12), (Z.ltb_spec (j - 8) 4); lia).
    simpl. apply andb_comm.
Qed.

Lemma create_coord_packed_witness :
  is_u8 0xFF /\ is_u8 0x00 /\ create_coord 0xFF 0x00 = 3840.
Proof.
  assert (H1 : is_u8 0xFF) by (unfold is_u8; lia).
  assert (H2 : is_u8 0x00) by (unfold is_u8; lia).
  split; [exact H1 | split; [exact H2 |]].
  rewrite (proj1 (create_coord_packed 0xFF 0x00 H1 H2)). reflexivity.
Defined.

(** C9: the decoder only sees the low nibble of the high byte,
    [create_coord high low = create_coord (high & 0x0F) low]; equal results
    come from equal [(high & 0x0F, low)] pairs, so that the decoder is
    injective on high bytes 0x00..0x0F; it maps (0, 0) to 0, (0x0F, 0xFF)
    to 4095, the largest value it can return, and (0x10, 0x00) to 0. *)
Theorem create_coord_injective (h1 l1 h2 l2 : Z) :
  is_u8 h1 -> is_u8 l1 -> is_u8 h2 -> is_u8 l2 ->
  create_coord h1 l1 = create_coord (Z.land h1 0x0F) l1
  /\ (create_coord h1 l1 = create_coord h2 l2 ->
      Z.land h1 0x0F = Z.land h2 0x0F /\ l1 = l2)
  /\ (h1 < 16 -> h2 < 16 ->
      create_coord h1 l1 = create_coord h2 l2 -> h1 = h2 /\ l1 = l2)
  /\ create_coord 0 0 = 0
  /\ create_coord 0x0F 0xFF = 4095
  /\ create_coord h1 l1 <= 4095
  /\ create_coord 0x10 0x00 = 0.
Proof.
  intros Hh1 Hl1 Hh2 Hl2.
  assert (Inj : create_coord h1 l1 = create_coord h2 l2 ->
                Z.land h1 0x0F = Z.land h2 0x0F /\ l1 = l2).
  { intros E. split.
    - rewrite <- (create_coord_high h1 l1), <- (create_coord_high h2 l2) by auto.
      now rewrite E.
    - rewrite <- (create_coord_low h1 l1), <- (create_coord_low h2 l2) by auto.
      now rewrite E. }
  split; [|split; [exact Inj|split; [|split; [reflexivity|split;
    [reflexivity|split; [|reflexivity]]]]]].
  - apply Z.bits_inj'. intros j Hj.
    rewrite !create_coord_bits, Z.land_spec by lia.
    f_equal.
    destruct (Z.leb_spec 8 j); [|reflexivity].
    destruct (Z.ltb_spec j 12); [|reflexivity].
    change 0x0F with (Z.ones 4). rewrite Z.testbit_ones_nonneg by lia.
    replace (j - 8 <? 4) with true by (symmetry; apply Z.ltb_lt; lia).
    simpl. now rewrite andb_true_r.
  - intros B1 B2 E. destruct (Inj E) as [N L]. split; [|exact L].
    unfold is_u8 in *. rewrite !land_0x0F_small in N by lia. exact N.
  - apply create_coord_range.
Qed.

Lemma create_coord_injective_witness :
  is_u8 0x0F /\ is_u8 0xFF /\ is_u8 0x1F /\
  create_coord 0x0F 0xFF = create_coord (Z.land 0x0F 0x0F) 0xFF /\
  (create_coord 0x0F 0xFF = create_coord 0x1F 0xFF ->
   Z.land 0x0F 0x0F = Z.land 0x1F 0x0F /\ 0xFF = 0xFF).
Proof.
  assert (H1 : is_u8 0x0F) by (unfold is_u8; lia).
  assert (H2 : is_u8 0xFF) by (unfold is_u8; lia).
  assert (H3 : is_u8 0x1F) by (unfold is_u8; lia).
  pose proof (create_coord_injective 0x0F 0xFF 0x1F 0xFF H1 H2 H3 H2)
    as (A & B & _).
  exact (conj H1 (conj H2 (conj H3 (conj A B)))).
Defined.

(* ================================================================== *)
(** ** Running driver code *)

Lemma emitted_app {A} (a : A) (g : globals) (h evs : trace) :
  emitted h (a, g, h ++ evs) = evs.
Proof.
  unfold emitted, trace_of. simpl.
  rewrite skipn_app, skipn_all, Nat.sub_diag. reflexivity.
Qed.

(** Unfold the monad and bring the history in the form [h ++ [e1; ...]]. *)
Ltac run :=
  cbv beta iota zeta delta
    [bind ret get put ask emit result_of globals_of];
  rewrite <- ?app_assoc; cbn [app].

(** Case analysis on the tests of [mtl2_touchscreen_probe]. *)
Ltac split_ifs :=
  repeat (match goal with
          | |- context [if negb (?a =? ?b) then _ else _] =>
              let r := fresh "r" in
              generalize a; intros r; destruct (r =? b) eqn:?; cbn [negb]
          | |- context [if ?a =? ?b then _ else _] =>
              let r := fresh "r" in
              generalize a; intros r; destruct (r =? b) eqn:?
          | |- context [if ?a <? ?b then _ else _] =>
              let r := fresh "r" in
              generalize a; intros r; destruct (r <? b) eqn:?
          end; cbv beta iota).

(** One goal per path through [mtl2_touchscreen_probe], the answers of the
    platform on the path being arbitrary numbers that pass its tests. *)
Ltac probe_paths :=
  unfold mtl2_touchscreen_probe; run; split_ifs;
  cbn [mtl2_irq data_input data_client set_mtl2_irq set_data_input] in *;
  rewrite <- ?app_assoc; cbn [app]; rewrite ?emitted_app.

Ltac use_tests :=
  repeat match goal with
  | H : ?c = true |- context [if ?c then _ else _] => rewrite H
  | H : ?c = false |- context [if ?c then _ else _] => rewrite H
  end.

Ltac tests_to_facts :=
  repeat match goal with
  | H : (_ =? _) = true |- _ => apply Z.eqb_eq in H
  | H : (_ =? _) = false |- _ => apply Z.eqb_neq in H
  | H : (_ <? _) = true |- _ => apply Z.ltb_lt in H
  | H : (_ <? _) = false |- _ => apply Z.ltb_ge in H
  end.

(** One interrupt episode, in full. *)
Lemma mtl2_touchscreen_irq_run (k : kernel) (irq : Z) (dev_id : handle)
    (h : trace) (g : globals) :
  mtl2_touchscreen_irq k irq dev_id h g
  = let '(xh, xl, yh, yl) := episode_answers k h g in
    let x := create_coord (u8 xh) (u8 xl) in
    let y := create_coord (u8 yh) (u8 yl) in
    (IRQ_HANDLED, g,
     h ++ [ i2c_smbus_read_byte_data (data_client g) TOUCH1_XH xh;
            i2c_smbus_read_byte_data (data_client g) TOUCH1_XL xl;
            i2c_smbus_read_byte_data (data_client g) TOUCH1_YH yh;
            i2c_smbus_read_byte_data (data_client g) TOUCH1_YL yl;
            input_report_abs (data_input g) ABS_X x;
            input_report_abs (data_input g) ABS_Y y;
            input_report_key (data_input g) BTN_TOUCH 1;
            input_sync (data_input g);
            printk "%d, %d\n" [x; y] ]).
Proof.
  unfold mtl2_touchscreen_irq, episode_answers. run. reflexivity.
Qed.

(** A property of event lists that holds of one episode and is kept by
    concatenation holds of any number of episodes; the globals do not
    change. *)
Lemma irq_episodes_inv (k : kernel) (P : trace -> Prop) :
  P [] ->
  (forall a b, P a -> P b -> P (a ++ b)) ->
  (forall irq dev_id h g,
     P (emitted h (mtl2_touchscreen_irq k irq dev_id h g))) ->
  forall n h g,
    exists evs, irq_episodes k n h g = (tt, g, h ++ evs) /\ P evs.
Proof.
  intros Pnil Papp Pone. induction n as [|n IH]; intros h g.
  - exists []. split; [|exact Pnil]. simpl. unfold ret. now rewrite app_nil_r.
  - specialize (Pone (mtl2_irq g) 0 h g).
    simpl irq_episodes. unfold bind at 1 2, get.
    rewrite mtl2_touchscreen_irq_run in *.
    destruct (episode_answers k h g) as [[[xh xl] yh] yl].
    cbv beta iota zeta in *. rewrite emitted_app in Pone.
    match goal with
    | |- context [irq_episodes k n (h ++ ?e) g] =>
        destruct (IH (h ++ e) g) as (evs & E & Pevs); exists (e ++ evs)
    end.
    split; [|now apply Papp].
    rewrite E. now rewrite <- app_assoc.
Qed.

Lemma bus_reads_app (a b : trace) :
  bus_reads (a ++ b) = bus_reads a ++ bus_reads b.
Proof.
  induction a as [|e a IH]; simpl; [reflexivity|].
  destruct e; simpl; now rewrite ?IH.
Qed.

(* ================================================================== *)
(** ** Properties of the interrupt handler *)

(** The end-to-end scenario of the register layout: the bus holds
    X = 0x00 / 0x64 and Y = 0x01 / 0x2C; the frame is X = 100, Y = 300,
    pressed, then the synchronize. *)
Example irq_end_to_end :
  sink_reports
    (emitted []
       (mtl2_touchscreen_irq
          (k_regs (fun reg =>
                     if reg =? TOUCH1_XL then 0x64
                     else if reg =? TOUCH1_YH then 0x01
                     else if reg =? TOUCH1_YL then 0x2C
                     else 0x00))
          170 NULL [] armed_globals))
  = [ input_report_abs 2 ABS_X 100; input_report_abs 2 ABS_Y 300;
      input_report_key 2 BTN_TOUCH 1; input_sync 2 ].
Proof. reflexivity. Qed.

(** C2: one interrupt episode sends to the event sink exactly one
    absolute-X report, one absolute-Y report, one BTN_TOUCH report with
    value 1 (pressed) and one synchronize, in this order; and no number of
    episodes ever produces a key report with value 0 (a release). *)
Theorem irq_frame (k : kernel) (irq : Z) (dev_id : handle)
    (h : trace) (g : globals) (n : nat) :
  (exists x y,
     sink_reports (emitted h (mtl2_touchscreen_irq k irq dev_id h g))
     = [ input_report_abs (data_input g) ABS_X x;
         input_report_abs (data_input g) ABS_Y y;
         input_report_key (data_input g) BTN_TOUCH 1;
         input_sync (data_input g) ])
  /\ Forall (fun e => is_release e = false)
       (emitted h (mtl2_touchscreen_irq k irq dev_id h g))
  /\ Forall (fun e => is_release e = false)
       (emitted h (irq_episodes k n h g)).
Proof.
  assert (One : forall irq dev_id h g,
            Forall (fun e => is_release e = false)
              (emitted h (mtl2_touchscreen_irq k irq dev_id h g))).
  { intros irq' dev' h' g'. rewrite mtl2_touchscreen_irq_run.
    destruct (episode_answers k h' g') as [[[xh xl] yh] yl].
    cbv zeta. rewrite emitted_app.
    repeat constructor. }
  split; [|split; [apply One|]].
  - rewrite mtl2_touchscreen_irq_run.
    destruct (episode_answers k h g) as [[[xh xl] yh] yl].
    cbv zeta. rewrite emitted_app.
    eexists. eexists. reflexivity.
  - destruct (irq_episodes_inv k (Forall (fun e => is_release e = false)))
      with (n := n) (h := h) (g := g) as (evs & E & F).
    + constructor.
    + intros a b Ha Hb. apply Forall_app. now split.
    + exact One.
    + rewrite E, emitted_app. exact F.
Qed.

(** C8: one interrupt episode reads exactly the four registers of touch
    slot 1, at offsets 0x03, 0x04, 0x05 and 0x06, in this order; the
    registers of slots 2 to 5 (0x09-0x0C, 0x0F-0x12, 0x15-0x18, 0x1B-0x1E)
    are in the register map and no number of episodes reads any of them;
    module load, attach and detach read no register at all. *)
Theorem irq_reads_slot_one (k : kernel) (irq : Z)
    (dev_id client adapter : handle) (h : trace) (g : globals) (n : nat) :
  bus_reads (emitted h (mtl2_touchscreen_irq k irq dev_id h g))
  = [TOUCH1_XH; TOUCH1_XL; TOUCH1_YH; TOUCH1_YL]
  /\ [TOUCH1_XH; TOUCH1_XL; TOUCH1_YH; TOUCH1_YL] = [0x03; 0x04; 0x05; 0x06]
  /\ other_slot_registers
     = [ 0x09; 0x0A; 0x0B; 0x0C; 0x0F; 0x10; 0x11; 0x12;
         0x15; 0x16; 0x17; 0x18; 0x1B; 0x1C; 0x1D; 0x1E ]
  /\ Forall (fun reg => ~ In reg other_slot_registers)
       (bus_reads (emitted h (irq_episodes k n h g)))
  /\ bus_reads (emitted h (mtl2_touchscreen_init k h g)) = []
  /\ bus_reads (emitted h (mtl2_touchscreen_probe k client adapter h g)) = []
  /\ bus_reads (emitted h (mtl2_touchscreen_exit h g)) = [].
Proof.
  assert (One : forall irq dev_id h g,
            bus_reads (emitted h (mtl2_touchscreen_irq k irq dev_id h g))
            = [TOUCH1_XH; TOUCH1_XL; TOUCH1_YH; TOUCH1_YL]).
  { intros irq' dev' h' g'. rewrite mtl2_touchscreen_irq_run.
    destruct (episode_answers k h' g') as [[[xh xl] yh] yl].
    cbv zeta. now rewrite emitted_app. }
  split; [apply One|split; [reflexivity|split; [reflexivity|]]].
  split; [|split; [|split]].
  - destruct (irq_episodes_inv k
                (fun evs => Forall (fun reg => ~ In reg other_slot_registers)
                              (bus_reads evs)))
      with (n := n) (h := h) (g := g) as (evs & E & F).
    + constructor.
    + intros a b Ha Hb. rewrite bus_reads_app. apply Forall_app. now split.
    + intros irq' dev' h' g'. rewrite One.
      repeat constructor; vm_compute; intuition discriminate.
    + rewrite E, emitted_app. exact F.
  - unfold mtl2_touchscreen_init. run. now rewrite emitted_app.
  - probe_paths; reflexivity.
  - unfold mtl2_touchscreen_exit. run. now rewrite emitted_app.
Qed.

(** C4: the handler does not tell a failed bus read from data.  Whatever
    the four reads answer, a negative error code included, each answer is
    reduced modulo 256 to a byte, the bytes are decoded, the frame is
    reported and the handler returns [IRQ_HANDLED]; a platform whose reads
    all fail with -5 (EIO) yields the frame of the bytes 251, that is
    X = Y = 3067. *)
Theorem irq_ignores_bus_errors (k : kernel) (irq : Z) (dev_id : handle)
    (h : trace) (g : globals) :
  (let '(xh, xl, yh, yl) := episode_answers k h g in
   let run := mtl2_touchscreen_irq k irq dev_id h g in
   result_of run = IRQ_HANDLED
   /\ sink_reports (emitted h run)
      = [ input_report_abs (data_input g) ABS_X
            (create_coord (xh mod 256) (xl mod 256));
          input_report_abs (data_input g) ABS_Y
            (create_coord (yh mod 256) (yl mod 256));
          input_report_key (data_input g) BTN_TOUCH 1;
          input_sync (data_input g) ])
  /\ episode_answers (k_ok (-5)) h g = (-5, -5, -5, -5)
  /\ sink_reports (emitted h (mtl2_touchscreen_irq (k_ok (-5)) irq dev_id h g))
     = sink_reports (emitted h (mtl2_touchscreen_irq (k_ok 251) irq dev_id h g))
  /\ sink_reports (emitted h (mtl2_touchscreen_irq (k_ok (-5)) irq dev_id h g))
     = [ input_report_abs (data_input g) ABS_X 3067;
         input_report_abs (data_input g) ABS_Y 3067;
         input_report_key (data_input g) BTN_TOUCH 1;
         input_sync (data_input g) ].
Proof.
  split; [|split; [reflexivity|]].
  - rewrite mtl2_touchscreen_irq_run.
    destruct (episode_answers k h g) as [[[xh xl] yh] yl].
    cbv beta iota zeta. rewrite emitted_app. split; reflexivity.
  - rewrite !mtl2_touchscreen_irq_run.
    change (episode_answers (k_ok (-5)) h g) with (-5, -5, -5, -5).
    change (episode_answers (k_ok 251) h g) with (251, 251, 251, 251).
    cbv beta iota zeta. rewrite !emitted_app. split; reflexivity.
Qed.

(* ================================================================== *)
(** ** Properties of detach *)

(** C3: [mtl2_touchscreen_exit] takes no answer from the platform and has
    no branch: from any history and any globals, whatever failed before,
    it disables the interrupt line, frees the GPIO pin, unregisters the
    event-sink device and unregisters the bus client, these four releases
    of the touch device in this order, between the log line and the
    removal of the driver from the driver table. *)
Theorem exit_releases_in_order (h : trace) (g : globals) :
  mtl2_touchscreen_exit h g
  = (None, g,
     h ++ [ printk "Removing module." [];
            disable_irq (mtl2_irq g);
            gpio_free INT_GPIO_PIN;
            input_unregister_device (data_input g);
            i2c_unregister_device (data_client g);
            i2c_del_driver DEVICE_NAME ])
  /\ filter is_device_release (emitted h (mtl2_touchscreen_exit h g))
     = [ disable_irq (mtl2_irq g);
         gpio_free INT_GPIO_PIN;
         input_unregister_device (data_input g);
         i2c_unregister_device (data_client g) ].
Proof.
  assert (E : mtl2_touchscreen_exit h g
              = (None, g,
                 h ++ [ printk "Removing module." [];
                        disable_irq (mtl2_irq g);
                        gpio_free INT_GPIO_PIN;
                        input_unregister_device (data_input g);
                        i2c_unregister_device (data_client g);
                        i2c_del_driver DEVICE_NAME ])).
  { unfold mtl2_touchscreen_exit. run. reflexivity. }
  split; [exact E|]. rewrite E, emitted_app. reflexivity.
Qed.

(* ================================================================== *)
(** ** Properties of attach *)

(** C5: when [gpio_request] fails, [mtl2_touchscreen_probe] returns -1 at
    once: the globals are as before and the history has grown by the failed
    request and the error message only, so that no interrupt line is
    mapped, no handler installed, no bus check made and no event-sink
    device allocated or registered. *)
Theorem probe_gpio_busy (k : kernel) (client adapter : handle)
    (h : trace) (g : globals) :
  k_gpio_request k h INT_GPIO_PIN <> 0 ->
  mtl2_touchscreen_probe k client adapter h g
  = (Some (-1), g,
     h ++ [ gpio_request INT_GPIO_PIN (k_gpio_request k h INT_GPIO_PIN);
            dev_err "GPIO request failure." [] ]).
Proof.
  intros Busy. unfold mtl2_touchscreen_probe. run.
  apply Z.eqb_neq in Busy. rewrite Busy. cbn [negb]. cbv beta iota.
  now rewrite <- app_assoc.
Qed.

Lemma probe_gpio_busy_witness :
  k_gpio_request (k_attach (-16) 170 0 1 2 0) [] INT_GPIO_PIN <> 0
  /\ mtl2_touchscreen_probe (k_attach (-16) 170 0 1 2 0) 1 3 [] initial_globals
     = (Some (-1), initial_globals,
        [ gpio_request 4 (-16); dev_err "GPIO request failure." [] ]).
Proof.
  assert (Busy : k_gpio_request (k_attach (-16) 170 0 1 2 0) [] INT_GPIO_PIN
                 <> 0) by (simpl; lia).
  split; [exact Busy|].
  exact (probe_gpio_busy (k_attach (-16) 170 0 1 2 0) 1 3 [] initial_globals
           Busy).
Defined.

(** What a run of [mtl2_touchscreen_probe] looks like: either no step
    fails, nothing is logged as an error and control reaches the end of
    the function; or exactly one step fails, only logging follows it, and
    the return value and the message are those of [attach_report]. *)
Lemma probe_outcome (k : kernel) (client adapter : handle)
    (h : trace) (g : globals) :
  let run := mtl2_touchscreen_probe k client adapter h g in
  let tr := emitted h run in
  match attach_failures tr with
  | [] => result_of run = None /\ error_log tr = []
  | [f] =>
      Forall (fun e => is_log e = true) (after_failure tr)
      /\ exists code,
           code <> 0
           /\ (result_of run, error_log tr) = attach_report f code
           /\ (f = RegistrationError ->
               (exists dev, In (input_register_device dev code) tr)
               /\ (forall dev c, In (input_register_device dev c) tr ->
                   c = code)
               /\ In (dev_err
                        "Failed to register input device. Error code: %d\n"
                        [code]) tr)
  | _ => False
  end.
Proof.
  cbv zeta. probe_paths;
    cbn [attach_failures flat_map failed_step after_failure app];
    use_tests; cbn [app after_failure failed_step]; use_tests;
    cbn [error_log flat_map app];
    try (split;
         [repeat constructor
         | exists 1; split;
           [lia | split; [reflexivity | intros Ef; discriminate Ef]]]).
  - split; reflexivity.
  - split; [repeat constructor|].
    match goal with
    | |- context [dev_err _ [?r]] => exists r
    end.
    tests_to_facts. split; [assumption|]. split; [reflexivity|].
    intros _. split; [eexists; cbn; auto 20|]. split; [|cbn; auto 20].
    intros dev c HIn. cbn in HIn.
    repeat (destruct HIn as [E|HIn]; [try discriminate E|]);
      try contradiction.
    now injection E as _ <-.
Qed.





(** C7: [mtl2_touchscreen_probe] gives nothing back.  No run of it makes
    a teardown call; when the bus-functionality check is the step that
    fails, it returns -ENXIO after the failed check and its message, the
    resources held are those held after the handler was installed, and the
    GPIO pin is still reserved and the handler still installed; the same
    holds when the registration of the event-sink device fails. *)
Theorem probe_no_rollback (k : kernel) (client adapter : handle)
    (h : trace) (g : globals) (r : resources) :
  let run := mtl2_touchscreen_probe k client adapter h g in
  let tr := emitted h run in
  Forall (fun e => is_teardown e = false) tr
  /\ (attach_failures tr = [UnsupportedBus] ->
      exists irq,
        result_of run = Some (- ENXIO)
        /\ tr = [ gpio_request INT_GPIO_PIN 0;
                  gpio_to_irq INT_GPIO_PIN irq;
                  printk "Mapped int %d\n" [irq];
                  devm_request_irq irq IRQF_TRIGGER_RISING "mtl2_irq" 0;
                  i2c_check_functionality I2C_FUNC_I2C 0;
                  dev_err "i2c_check_functionality error\n" [] ]
        /\ held r tr = held r (firstn 4 tr)
        /\ In INT_GPIO_PIN (gpio_reserved (held r tr))
        /\ In irq (irq_handlers (held r tr)))
  /\ (attach_failures tr = [RegistrationError] ->
      In INT_GPIO_PIN (gpio_reserved (held r tr))
      /\ In (mtl2_irq (globals_of run)) (irq_handlers (held r tr))).
Proof.
  cbv zeta. probe_paths.
  all: split; [repeat constructor|].
  all: cbn [attach_failures flat_map failed_step app]; use_tests; cbn [app].
  all: split; intros F; try discriminate F.
  all: tests_to_facts; subst.
  - exists r1. cbn. auto 10.
  - cbn. rewrite ?Z.eqb_refl. cbn.
    match goal with
    | H : ?x <> 0 |- _ => apply Z.eqb_neq in H; rewrite H
    end.
    cbn. auto.
Qed.

Lemma probe_no_rollback_witness :
  let run :=
    mtl2_touchscreen_probe (k_attach 0 170 0 0 2 0) 1 3 [] initial_globals in
  attach_failures (emitted [] run) = [UnsupportedBus]
  /\ exists irq,
       result_of run = Some (- ENXIO)
       /\ emitted [] run
          = [ gpio_request INT_GPIO_PIN 0;
              gpio_to_irq INT_GPIO_PIN irq;
              printk "Mapped int %d\n" [irq];
              devm_request_irq irq IRQF_TRIGGER_RISING "mtl2_irq" 0;
              i2c_check_functionality I2C_FUNC_I2C 0;
              dev_err "i2c_check_functionality error\n" [] ]
       /\ held no_resources (emitted [] run)
          = held no_resources (firstn 4 (emitted [] run))
       /\ In INT_GPIO_PIN (gpio_reserved (held no_resources (emitted [] run)))
       /\ In irq (irq_handlers (held no_resources (emitted [] run))).
Proof.
  cbv zeta. split; [reflexivity|].
  exact (proj1 (proj2 (probe_no_rollback (k_attach 0 170 0 0 2 0) 1 3 []
                         initial_globals no_resources)) eq_refl).
Defined.

(* ================================================================== *)
(** ** The reported values and the configured axis ranges *)

(** C10: the handler does not clamp.  Every absolute report of an episode
    carries the decoder's output for the bytes read, unchanged; an attach
    that reaches its end has configured the axes with the ranges 0..480
    and 0..800; and on a panel whose registers hold 0x0F / 0xFF the report
    for X after such an attach is 4095, above the configured 480. *)
Theorem irq_reports_unclamped (k : kernel) (irq : Z)
    (dev_id client adapter : handle) (h : trace) (g : globals) :
  (let '(xh, xl, yh, yl) := episode_answers k h g in
   forall dev axis v,
     In (input_report_abs dev axis v)
        (emitted h (mtl2_touchscreen_irq k irq dev_id h g)) ->
     v = match axis with
         | ABS_X => create_coord (u8 xh) (u8 xl)
         | ABS_Y => create_coord (u8 yh) (u8 yl)
         end)
  /\ (let run := mtl2_touchscreen_probe k client adapter h g in
      result_of run = None ->
      In (input_set_abs_params (data_input (globals_of run)) ABS_X 0 480 0 0)
         (emitted h run)
      /\ In (input_set_abs_params (data_input (globals_of run)) ABS_Y 0 800 0 0)
            (emitted h run))
  /\ (let tr := emitted [] (bring_up_and_touch k_full_scale []
                              initial_globals) in
      In (input_set_abs_params 2 ABS_X 0 MTL2_MAX_X 0 0) tr
      /\ In (input_report_abs 2 ABS_X 4095) tr
      /\ MTL2_MAX_X = 480
      /\ MTL2_MAX_X < 4095).
Proof.
  split; [|split].
  - rewrite mtl2_touchscreen_irq_run.
    destruct (episode_answers k h g) as [[[xh xl] yh] yl].
    cbv beta iota zeta. rewrite emitted_app.
    intros dev axis v HIn. simpl in HIn.
    repeat (destruct HIn as [E|HIn]; [try discriminate E|]);
      try contradiction;
      injection E as <- <- <-; reflexivity.
  - cbv zeta. probe_paths; intros R; try discriminate R.
    cbn. auto 20.
  - cbv zeta. vm_compute. intuition congruence.
Qed.

Lemma irq_reports_unclamped_witness :
  let run := mtl2_touchscreen_probe (k_ok 0) 1 3 [] initial_globals in
  result_of run = None
  /\ In (input_set_abs_params (data_input (globals_of run)) ABS_X 0 480 0 0)
        (emitted [] run)
  /\ In (input_set_abs_params (data_input (globals_of run)) ABS_Y 0 800 0 0)
        (emitted [] run).
Proof.
  cbv zeta. split; [reflexivity|].
  exact (proj1 (proj2 (irq_reports_unclamped (k_ok 0) 170 0 1 3 []
                         initial_globals)) eq_refl).
Defined.

(* ================================================================== *)
(** ** Further properties of the macros and of the decoder *)

Lemma u16_high_bits_clear (a : Z) :
  0 <= a < 65536 -> forall i, 16 <= i -> Z.testbit a i = false.
Proof.
  intros Ha i Hi. rewrite <- (Z.mod_small a 65536) by lia.
  fold (u16 a). now apply u16_bits_high.
Qed.

(** X1: on a [u16] value and a bit position below 16, [BIT_SET] followed
    by [BIT_CHECK] of the same position is true, [BIT_CHECK] of any other
    position is what it was, and the value stays a [u16]. *)
Theorem BIT_SET_then_BIT_CHECK (a b c : Z) :
  0 <= a < 65536 -> 0 <= b < 16 -> 0 <= c ->
  BIT_CHECK (BIT_SET a b) b = true
  /\ (c <> b -> BIT_CHECK (BIT_SET a b) c = BIT_CHECK a c)
  /\ 0 <= BIT_SET a b < 65536.
Proof.
  intros Ha Hb Hc.
  pose proof (u16_high_bits_clear a Ha) as Hi.
  split; [|split].
  - rewrite BIT_CHECK_testbit, BIT_SET_bits, Z.eqb_refl by (auto; lia).
    apply orb_true_r.
  - intros Ne. rewrite !BIT_CHECK_testbit, BIT_SET_bits by (auto; lia).
    replace (c =? b) with false by (symmetry; apply Z.eqb_neq; lia).
    apply orb_false_r.
  - unfold BIT_SET, u16. apply Z.mod_pos_bound. lia.
Qed.

Lemma BIT_SET_then_BIT_CHECK_witness :
  0 <= 0x0100 < 65536 /\ 0 <= 3 < 16 /\ 0 <= 8
  /\ BIT_CHECK (BIT_SET 0x0100 3) 3 = true
  /\ (8 <> 3 -> BIT_CHECK (BIT_SET 0x0100 3) 8 = BIT_CHECK 0x0100 8).
Proof.
  assert (Ha : 0 <= 0x0100 < 65536) by lia.
  assert (Hb : 0 <= 3 < 16) by lia.
  assert (Hc : 0 <= 8) by lia.
  pose proof (BIT_SET_then_BIT_CHECK 0x0100 3 8 Ha Hb Hc) as (A & B & _).
  exact (conj Ha (conj Hb (conj Hc (conj A B)))).
Defined.

(** The decoder sees of its arguments what survives the conversion to
    [u8]. *)
Lemma create_coord_narrow (msb lsb : Z) :
  create_coord msb lsb = create_coord (u8 msb) (u8 lsb).
Proof.
  apply Z.bits_inj'. intros j Hj. rewrite !create_coord_bits by lia.
  unfold u8. change 256 with (2 ^ 8). f_equal.
  - destruct (Z.ltb_spec j 8); [|reflexivity].
    now rewrite Z.mod_pow2_bits_low by lia.
  - destruct (Z.leb_spec 8 j); [|reflexivity].
    destruct (Z.ltb_spec j 12); [|reflexivity].
    now rewrite Z.mod_pow2_bits_low by lia.
Qed.

Lemma u8_is_u8 (z : Z) : is_u8 (u8 z).
Proof. unfold is_u8, u8. apply Z.mod_pos_bound. lia. Qed.

(** X2: the two register fields can be read back from the decoded value:
    its low eight bits are the low byte and the bits above them are the
    low nibble of the high byte. *)
Theorem create_coord_fields (msb lsb : Z) :
  is_u8 msb -> is_u8 lsb ->
  Z.land (create_coord msb lsb) 0xFF = lsb
  /\ Z.shiftr (create_coord msb lsb) 8 = Z.land msb 0x0F
  /\ create_coord (Z.shiftr (create_coord msb lsb) 8)
                  (Z.land (create_coord msb lsb) 0xFF)
     = create_coord msb lsb.
Proof.
  intros Hm Hl.
  rewrite create_coord_low, create_coord_high by assumption.
  split; [reflexivity|split; [reflexivity|]].
  apply Z.bits_inj'. intros j Hj.
  rewrite !create_coord_bits, Z.land_spec by lia. f_equal.
  destruct (Z.leb_spec 8 j); [|reflexivity].
  destruct (Z.ltb_spec j 12); [|reflexivity].
  change 0x0F with (Z.ones 4). rewrite Z.testbit_ones_nonneg by lia.
  replace (j - 8 <? 4) with true by (symmetry; apply Z.ltb_lt; lia).
  simpl. now rewrite andb_true_r.
Qed.

Lemma create_coord_fields_witness :
  is_u8 0xA1 /\ is_u8 0xA3
  /\ Z.land (create_coord 0xA1 0xA3) 0xFF = 0xA3
  /\ Z.shiftr (create_coord 0xA1 0xA3) 8 = Z.land 0xA1 0x0F.
Proof.
  assert (H1 : is_u8 0xA1) by (unfold is_u8; lia).
  assert (H2 : is_u8 0xA3) by (unfold is_u8; lia).
  pose proof (create_coord_fields 0xA1 0xA3 H1 H2) as (A & B & _).
  exact (conj H1 (conj H2 (conj A B))).
Defined.

(** The decoded value as a number, for bytes. *)
Lemma create_coord_sum (msb lsb : Z) :
  is_u8 lsb -> create_coord msb lsb = lsb + 256 * (msb mod 16).
Proof.
  intros Hl.
  pose proof (create_coord_low msb lsb Hl) as L.
  pose proof (create_coord_high msb lsb Hl) as H.
  change 0xFF with (Z.ones 8) in L. rewrite Z.land_ones in L by lia.
  change 0x0F with (Z.ones 4) in H. rewrite Z.land_ones in H by lia.
  rewrite Z.shiftr_div_pow2 in H by lia.
  change (2 ^ 8) with 256 in *. change (2 ^ 4) with 16 in *.
  rewrite (Z.div_mod (create_coord msb lsb) 256) by lia.
  rewrite L, H. lia.
Qed.

(** X3: as a number the decoded value is [low + 256 * (high mod 16)]; it
    grows strictly with the low byte and with the low nibble of the high
    byte, and does not change when 16 is added to the high byte. *)
Theorem create_coord_value (high low high' low' : Z) :
  is_u8 high -> is_u8 low -> is_u8 high' -> is_u8 low' ->
  create_coord high low = low + 256 * (high mod 16)
  /\ (high mod 16 < high' mod 16 -> create_coord high low < create_coord high' low')
  /\ (high mod 16 = high' mod 16 -> low < low' ->
      create_coord high low < create_coord high' low')
  /\ (high + 16 < 256 -> create_coord (high + 16) low = create_coord high low).
Proof.
  intros Hh Hl Hh' Hl'.
  rewrite !create_coord_sum by assumption.
  unfold is_u8 in *.
  split; [reflexivity|split; [|split]].
  - intros Lt. lia.
  - intros E Lt. rewrite E. lia.
  - intros _.
    replace ((high + 16) mod 16) with (high mod 16); [reflexivity|].
    rewrite <- (Z.mul_1_l 16) at 2. now rewrite Z.mod_add by lia.
Qed.

Lemma create_coord_value_witness :
  is_u8 0x01 /\ is_u8 0xFF /\ is_u8 0x02 /\ is_u8 0x00
  /\ create_coord 0x01 0xFF = 0xFF + 256 * (0x01 mod 16)
  /\ (0x01 mod 16 < 0x02 mod 16 ->
      create_coord 0x01 0xFF < create_coord 0x02 0x00).
Proof.
  assert (H1 : is_u8 0x01) by (unfold is_u8; lia).
  assert (H2 : is_u8 0xFF) by (unfold is_u8; lia).
  assert (H3 : is_u8 0x02) by (unfold is_u8; lia).
  assert (H4 : is_u8 0x00) by (unfold is_u8; lia).
  pose proof (create_coord_value 0x01 0xFF 0x02 0x00 H1 H2 H3 H4)
    as (A & B & _).
  exact (conj H1 (conj H2 (conj H3 (conj H4 (conj A B))))).
Defined.

(* ================================================================== *)
(** ** Further properties of the interrupt handler *)

Lemma u8_mod_16 (z : Z) : u8 z mod 16 = z mod 16.
Proof.
  unfold u8. apply Z.mod_mod_divide. exists 16. reflexivity.
Qed.

(** X4: whatever the four bus reads answer, the frame carries
    [xl mod 256 + 256 * (xh mod 16)] for X and the same of the Y answers
    for Y, so a reported value is never below 0 nor above 4095. *)
Theorem irq_reports_value (k : kernel) (irq : Z) (dev_id : handle)
    (h : trace) (g : globals) :
  let '(xh, xl, yh, yl) := episode_answers k h g in
  let x := xl mod 256 + 256 * (xh mod 16) in
  let y := yl mod 256 + 256 * (yh mod 16) in
  sink_reports (emitted h (mtl2_touchscreen_irq k irq dev_id h g))
  = [ input_report_abs (data_input g) ABS_X x;
      input_report_abs (data_input g) ABS_Y y;
      input_report_key (data_input g) BTN_TOUCH 1;
      input_sync (data_input g) ]
  /\ 0 <= x <= 4095 /\ 0 <= y <= 4095.
Proof.
  rewrite mtl2_touchscreen_irq_run.
  destruct (episode_answers k h g) as [[[xh xl] yh] yl].
  cbv beta iota zeta. rewrite emitted_app.
  rewrite !create_coord_sum by apply u8_is_u8.
  rewrite !u8_mod_16. unfold u8.
  split; [reflexivity|].
  pose proof (Z.mod_pos_bound xl 256). pose proof (Z.mod_pos_bound xh 16).
  pose proof (Z.mod_pos_bound yl 256). pose proof (Z.mod_pos_bound yh 16).
  lia.
Qed.

Lemma irq_episodes_run (k : kernel) (n : nat) :
  forall h g,
    exists evs,
      irq_episodes k n h g = (tt, g, h ++ evs)
      /\ List.length (bus_reads evs) = (4 * n)%nat
      /\ List.length (sink_reports evs) = (4 * n)%nat
      /\ List.length evs = (9 * n)%nat.
Proof.
  induction n as [|n IH]; intros h g.
  - exists []. simpl. unfold ret. now rewrite app_nil_r.
  - simpl irq_episodes. unfold bind at 1 2, get.
    rewrite mtl2_touchscreen_irq_run.
    destruct (episode_answers k h g) as [[[xh xl] yh] yl].
    cbv beta iota zeta.
    match goal with
    | |- context [irq_episodes k n (h ++ ?e) g] =>
        destruct (IH (h ++ e) g) as (evs & E & R & S & L); exists (e ++ evs)
    end.
    rewrite E, <- app_assoc. split; [reflexivity|].
    rewrite bus_reads_app. unfold sink_reports in *. rewrite filter_app.
    rewrite !length_app, R, S, L. cbn. lia.
Qed.

(** X5: [n] interrupt episodes in a row leave the globals as they were
    and add to the history exactly [4 * n] bus reads, [4 * n] reports to
    the event sink and [9 * n] events in all. *)
Theorem irq_episodes_counts (k : kernel) (n : nat) (h : trace) (g : globals) :
  globals_of (irq_episodes k n h g) = g
  /\ trace_of (irq_episodes k n h g)
     = h ++ emitted h (irq_episodes k n h g)
  /\ List.length (bus_reads (emitted h (irq_episodes k n h g))) = (4 * n)%nat
  /\ List.length (sink_reports (emitted h (irq_episodes k n h g)))
     = (4 * n)%nat
  /\ List.length (emitted h (irq_episodes k n h g)) = (9 * n)%nat.
Proof.
  destruct (irq_episodes_run k n h g) as (evs & E & R & S & L).
  rewrite E, emitted_app. repeat split; assumption.
Qed.

(* ================================================================== *)
(** ** Further properties of attach *)

Ltac failure_cases :=
  cbn [attach_failures flat_map failed_step app]; use_tests; cbn [app].

(** X6: [mtl2_touchscreen_probe] executes a [return] exactly when a
    step fails.  At most one step fails in a run; a run in which a step
    fails leaves through a [return] whose value is not 0; a run in which
    no step fails reaches the closing brace of the function without
    executing any [return], so that the source gives the caller no value
    then. *)
Theorem probe_returns_on_failure_only (k : kernel) (client adapter : handle)
    (h : trace) (g : globals) :
  let run := mtl2_touchscreen_probe k client adapter h g in
  (List.length (attach_failures (emitted h run)) <= 1)%nat
  /\ (forall f, attach_failures (emitted h run) = [f] ->
      exists v, result_of run = Some v /\ v <> 0)
  /\ (result_of run = None <-> attach_failures (emitted h run) = []).
Proof.
  intros run. pose proof (probe_outcome k client adapter h g) as O.
  cbv zeta in O. fold run in O.
  destruct (attach_failures (emitted h run)) as [|f [|f' fs]];
    [| |contradiction].
  - destruct O as [R _]. rewrite R.
    split; [simpl; lia|]. split; [intros f F; discriminate F|].
    split; reflexivity.
  - destruct O as (_ & code & Nz & R & _).
    split; [simpl; lia|].
    assert (exists v, result_of run = Some v /\ v <> 0) as (v & Rv & Nv).
    { destruct f; unfold attach_report in R; injection R as R _; rewrite R;
        eexists; (split; [reflexivity|]); cbv; try discriminate; assumption. }
    split; [intros f0 _; now exists v|].
    rewrite Rv. split; discriminate.
Qed.

Lemma probe_returns_on_failure_only_witness :
  let run :=
    mtl2_touchscreen_probe (k_attach 0 170 0 1 2 (-12)) 1 3 []
      initial_globals in
  attach_failures (emitted [] run) = [RegistrationError]
  /\ exists v, result_of run = Some v /\ v <> 0.
Proof.
  cbv zeta. split; [reflexivity|].
  exact (proj1 (proj2 (probe_returns_on_failure_only
                         (k_attach 0 170 0 1 2 (-12)) 1 3 [] initial_globals))
           RegistrationError eq_refl).
Defined.

(** The run of [mtl2_touchscreen_probe] in which no step fails. *)
Lemma probe_run_ok (k : kernel) (client adapter : handle)
    (h : trace) (g : globals) :
  attach_failures (emitted h (mtl2_touchscreen_probe k client adapter h g))
  = [] ->
  exists irq func input,
    0 <= irq /\ func <> 0 /\ input <> NULL
    /\ mtl2_touchscreen_probe k client adapter h g
       = (None,
          {| data_client := data_client g; data_input := input;
             mtl2_irq := irq |},
          h ++ [ gpio_request INT_GPIO_PIN 0;
                 gpio_to_irq INT_GPIO_PIN irq;
                 printk "Mapped int %d\n" [irq];
                 devm_request_irq irq IRQF_TRIGGER_RISING "mtl2_irq" 0;
                 i2c_check_functionality I2C_FUNC_I2C func;
                 devm_input_allocate_device input;
                 input_set_name input "MTL2 Touchscreen";
                 input_set_bustype input BUS_I2C;
                 input_set_parent input client;
                 set_bit_propbit INPUT_PROP_DIRECT input;
                 input_set_capability input EV_KEY BTN_TOUCH;
                 input_set_abs_params input ABS_X 0 MTL2_MAX_X 0 0;
                 input_set_abs_params input ABS_Y 0 MTL2_MAX_Y 0 0;
                 input_set_drvdata input;
                 input_register_device input 0 ]).
Proof.
  probe_paths; failure_cases; intros F; try discriminate F.
  tests_to_facts; subst.
  exists r0, r2, r3. repeat split; assumption.
Qed.

(** X7: when no step fails, the run of [mtl2_touchscreen_probe] is the
    full setup in this order: pin reserved, mapped to a line [irq >= 0],
    handler installed on [irq] for rising edges, bus checked, device
    [input] allocated, named, typed, parented, given its properties and
    its two axis ranges, and registered; afterwards [mtl2_irq] is [irq],
    [data.input] is [input] and [data.client] is untouched. *)
Theorem probe_success (k : kernel) (client adapter : handle)
    (h : trace) (g : globals) :
  let run := mtl2_touchscreen_probe k client adapter h g in
  attach_failures (emitted h run) = [] ->
  exists irq func input,
    0 <= irq /\ func <> 0 /\ input <> NULL
    /\ emitted h run
       = [ gpio_request INT_GPIO_PIN 0;
           gpio_to_irq INT_GPIO_PIN irq;
           printk "Mapped int %d\n" [irq];
           devm_request_irq irq IRQF_TRIGGER_RISING "mtl2_irq" 0;
           i2c_check_functionality I2C_FUNC_I2C func;
           devm_input_allocate_device input;
           input_set_name input "MTL2 Touchscreen";
           input_set_bustype input BUS_I2C;
           input_set_parent input client;
           set_bit_propbit INPUT_PROP_DIRECT input;
           input_set_capability input EV_KEY BTN_TOUCH;
           input_set_abs_params input ABS_X 0 MTL2_MAX_X 0 0;
           input_set_abs_params input ABS_Y 0 MTL2_MAX_Y 0 0;
           input_set_drvdata input;
           input_register_device input 0 ]
    /\ globals_of run
       = {| data_client := data_client g; data_input := input;
            mtl2_irq := irq |}
    /\ result_of run = None.
Proof.
  intros run F.
  destruct (probe_run_ok k client adapter h g F)
    as (irq & func & input & Hi & Hf & Hn & E).
  exists irq, func, input. subst run. rewrite E, emitted_app.
  repeat split; assumption.
Qed.

Lemma probe_success_witness :
  let run := mtl2_touchscreen_probe (k_ok 0) 1 3 [] initial_globals in
  attach_failures (emitted [] run) = []
  /\ exists irq func input,
       0 <= irq /\ func <> 0 /\ input <> NULL
       /\ emitted [] run
          = [ gpio_request INT_GPIO_PIN 0;
              gpio_to_irq INT_GPIO_PIN irq;
              printk "Mapped int %d\n" [irq];
              devm_request_irq irq IRQF_TRIGGER_RISING "mtl2_irq" 0;
              i2c_check_functionality I2C_FUNC_I2C func;
              devm_input_allocate_device input;
              input_set_name input "MTL2 Touchscreen";
              input_set_bustype input BUS_I2C;
              input_set_parent input 1;
              set_bit_propbit INPUT_PROP_DIRECT input;
              input_set_capability input EV_KEY BTN_TOUCH;
              input_set_abs_params input ABS_X 0 MTL2_MAX_X 0 0;
              input_set_abs_params input ABS_Y 0 MTL2_MAX_Y 0 0;
              input_set_drvdata input;
              input_register_device input 0 ]
       /\ globals_of run
          = {| data_client := data_client initial_globals;
               data_input := input; mtl2_irq := irq |}
       /\ result_of run = None.
Proof.
  cbv zeta. split; [reflexivity|].
  exact (probe_success (k_ok 0) 1 3 [] initial_globals eq_refl).
Defined.

(** X8: what a run of [mtl2_touchscreen_probe] leaves in the globals.
    [data.client] is never written.  A failed pin mapping leaves its
    negative answer in [mtl2_irq].  [data.input] is written only once a
    device was allocated: every failure before the registration leaves it
    as it was, and a failed registration leaves it pointing to the
    allocated, unregistered device. *)
Theorem probe_globals (k : kernel) (client adapter : handle)
    (h : trace) (g : globals) (f : attach_failure) :
  let run := mtl2_touchscreen_probe k client adapter h g in
  data_client (globals_of run) = data_client g
  /\ (attach_failures (emitted h run) = [InterruptMappingFailure] ->
      mtl2_irq (globals_of run) < 0
      /\ In (gpio_to_irq INT_GPIO_PIN (mtl2_irq (globals_of run)))
            (emitted h run))
  /\ (attach_failures (emitted h run) = [f] -> f <> RegistrationError ->
      data_input (globals_of run) = data_input g)
  /\ (attach_failures (emitted h run) = [RegistrationError] ->
      data_input (globals_of run) <> NULL
      /\ In (devm_input_allocate_device (data_input (globals_of run)))
            (emitted h run)
      /\ forall dev, ~ In (input_register_device dev 0) (emitted h run)).
Proof.
  cbv zeta. probe_paths.
  all: split; [reflexivity|].
  all: failure_cases.
  all: split; [intros F; try discriminate F|].
  all: try (split; [intros F Ne; try discriminate F; try reflexivity|]).
  all: try (intros F; try discriminate F).
  all: tests_to_facts; cbn [fst snd data_input mtl2_irq set_data_input].
  - split; [assumption|]. cbn. auto.
  - injection F as <-. congruence.
  - split; [assumption|]. split; [cbn; auto 10|].
    intros dev HIn. cbn in HIn.
    repeat (destruct HIn as [E|HIn]; [try discriminate E|]);
      try contradiction.
    injection E as _ E. congruence.
Qed.

Lemma probe_globals_witness :
  let run :=
    mtl2_touchscreen_probe (k_attach 0 (-22) 0 1 2 0) 1 3 [] initial_globals in
  attach_failures (emitted [] run) = [InterruptMappingFailure]
  /\ mtl2_irq (globals_of run) < 0
  /\ In (gpio_to_irq INT_GPIO_PIN (mtl2_irq (globals_of run))) (emitted [] run).
Proof.
  cbv zeta. split; [reflexivity|].
  exact (proj1 (proj2 (probe_globals (k_attach 0 (-22) 0 1 2 0) 1 3 []
                         initial_globals ResourceBusy)) eq_refl).
Defined.

(** X9: the handler is installed before the event-sink device exists.
    When attach stops at the bus check or at the allocation, the handler
    has been installed on [mtl2_irq] and nothing removed it, while
    [data.input] is still what it was before attach; an interrupt taken
    then reads the bus and reports its frame to that earlier
    [data.input]. *)
Theorem irq_after_failed_probe (k : kernel) (client adapter : handle)
    (irq : Z) (dev_id : handle) (h : trace) (g : globals) :
  let run := mtl2_touchscreen_probe k client adapter h g in
  let g' := globals_of run in
  let h' := trace_of run in
  attach_failures (emitted h run) = [UnsupportedBus]
  \/ attach_failures (emitted h run) = [AllocationFailure] ->
  In (devm_request_irq (mtl2_irq g') IRQF_TRIGGER_RISING "mtl2_irq" 0)
     (emitted h run)
  /\ exists x y,
       sink_reports (emitted h' (mtl2_touchscreen_irq k irq dev_id h' g'))
       = [ input_report_abs (data_input g) ABS_X x;
           input_report_abs (data_input g) ABS_Y y;
           input_report_key (data_input g) BTN_TOUCH 1;
           input_sync (data_input g) ].
Proof.
  intros run g' h' F.
  assert (P : In (devm_request_irq (mtl2_irq g') IRQF_TRIGGER_RISING
                    "mtl2_irq" 0) (emitted h run)
              /\ data_input g' = data_input g).
  { subst g' h' run. revert F.
    probe_paths; failure_cases; intros [F|F]; try discriminate F;
      tests_to_facts; subst; cbn; auto 10. }
  destruct P as [I D]. split; [exact I|].
  rewrite mtl2_touchscreen_irq_run.
  destruct (episode_answers k h' g') as [[[xh xl] yh] yl].
  cbv beta iota zeta. rewrite emitted_app, D.
  eexists. eexists. reflexivity.
Qed.

Lemma irq_after_failed_probe_witness :
  let run :=
    mtl2_touchscreen_probe (k_attach 0 170 0 1 0 0) 1 3 [] initial_globals in
  (attach_failures (emitted [] run) = [UnsupportedBus]
   \/ attach_failures (emitted [] run) = [AllocationFailure])
  /\ In (devm_request_irq (mtl2_irq (globals_of run)) IRQF_TRIGGER_RISING
           "mtl2_irq" 0) (emitted [] run)
  /\ exists x y,
       sink_reports
         (emitted (trace_of run)
            (mtl2_touchscreen_irq (k_attach 0 170 0 1 0 0) 170 NULL
               (trace_of run) (globals_of run)))
       = [ input_report_abs (data_input initial_globals) ABS_X x;
           input_report_abs (data_input initial_globals) ABS_Y y;
           input_report_key (data_input initial_globals) BTN_TOUCH 1;
           input_sync (data_input initial_globals) ].
Proof.
  cbv zeta.
  assert (F : attach_failures
                (emitted []
                   (mtl2_touchscreen_probe (k_attach 0 170 0 1 0 0) 1 3 []
                      initial_globals)) = [UnsupportedBus]
              \/ attach_failures
                   (emitted []
                      (mtl2_touchscreen_probe (k_attach 0 170 0 1 0 0) 1 3 []
                         initial_globals)) = [AllocationFailure])
    by (right; reflexivity).
  split; [exact F|].
  exact (irq_after_failed_probe (k_attach 0 170 0 1 0 0) 1 3 170 NULL []
           initial_globals F).
Defined.

(* ================================================================== *)
(** ** Module load, and detach after attach *)

Lemma mtl2_touchscreen_exit_run (h : trace) (g : globals) :
  mtl2_touchscreen_exit h g
  = (None, g,
     h ++ [ printk "Removing module." [];
            disable_irq (mtl2_irq g);
            gpio_free INT_GPIO_PIN;
            input_unregister_device (data_input g);
            i2c_unregister_device (data_client g);
            i2c_del_driver DEVICE_NAME ]).
Proof. unfold mtl2_touchscreen_exit. run. reflexivity. Qed.

Lemma mtl2_touchscreen_init_run (k : kernel) (h : trace) (g : globals) :
  let adap := k_i2c_get_adapter k (h ++ [printk "Inserting module." []]) 1 in
  let client :=
    k_i2c_new_device k
      (h ++ [printk "Inserting module." []; i2c_get_adapter 1 adap]) adap in
  let status :=
    k_i2c_add_driver k
      (h ++ [ printk "Inserting module." []; i2c_get_adapter 1 adap;
              i2c_new_device adap DEVICE_NAME DEVICE_ADDRESS client ]) in
  mtl2_touchscreen_init k h g
  = (Some 0, set_data_client g client,
     h ++ [ printk "Inserting module." [];
            i2c_get_adapter 1 adap;
            i2c_new_device adap DEVICE_NAME DEVICE_ADDRESS client;
            i2c_add_driver DEVICE_NAME status ]).
Proof. unfold mtl2_touchscreen_init. run. reflexivity. Qed.

Lemma remove_Z_not_In (x : Z) (l : list Z) : ~ In x (remove_Z x l).
Proof.
  unfold remove_Z. intros HIn. apply filter_In in HIn as [_ Hx].
  now rewrite Z.eqb_refl in Hx.
Qed.

(** X10: detach after an attach that found the GPIO pin busy.  The attach
    changed nothing, yet [mtl2_touchscreen_exit] still disables the line
    and frees pin 4, which this driver never obtained: whoever held the
    pin no longer holds it afterwards. *)
Theorem exit_after_busy_probe (k : kernel) (client adapter : handle)
    (h : trace) (g : globals) (r : resources) :
  let run := mtl2_touchscreen_probe k client adapter h g in
  let stop := mtl2_touchscreen_exit (trace_of run) (globals_of run) in
  attach_failures (emitted h run) = [ResourceBusy] ->
  exists ret,
    ret <> 0
    /\ emitted h stop
       = [ gpio_request INT_GPIO_PIN ret;
           dev_err "GPIO request failure." [];
           printk "Removing module." [];
           disable_irq (mtl2_irq g);
           gpio_free INT_GPIO_PIN;
           input_unregister_device (data_input g);
           i2c_unregister_device (data_client g);
           i2c_del_driver DEVICE_NAME ]
    /\ ~ In INT_GPIO_PIN (gpio_reserved (held r (emitted h stop))).
Proof.
  cbv zeta. rewrite mtl2_touchscreen_exit_run.
  probe_paths; failure_cases; intros F; try discriminate F.
  tests_to_facts. exists r0. split; [assumption|].
  cbn [trace_of snd fst]. rewrite <- app_assoc, emitted_app. cbn [app].
  split; [reflexivity|].
  unfold held. cbn [fold_left account].
  apply Z.eqb_neq in Heqb. rewrite Heqb. cbn [gpio_reserved].
  apply remove_Z_not_In.
Qed.

Lemma exit_after_busy_probe_witness :
  let k := k_attach (-16) 170 0 1 2 0 in
  let r := {| gpio_reserved := [INT_GPIO_PIN]; irq_handlers := [];
              sinks_registered := [] |} in
  let run := mtl2_touchscreen_probe k 1 3 [] initial_globals in
  let stop := mtl2_touchscreen_exit (trace_of run) (globals_of run) in
  attach_failures (emitted [] run) = [ResourceBusy]
  /\ In INT_GPIO_PIN (gpio_reserved r)
  /\ exists ret,
       ret <> 0
       /\ emitted [] stop
          = [ gpio_request INT_GPIO_PIN ret;
              dev_err "GPIO request failure." [];
              printk "Removing module." [];
              disable_irq (mtl2_irq initial_globals);
              gpio_free INT_GPIO_PIN;
              input_unregister_device (data_input initial_globals);
              i2c_unregister_device (data_client initial_globals);
              i2c_del_driver DEVICE_NAME ]
       /\ ~ In INT_GPIO_PIN (gpio_reserved (held r (emitted [] stop))).
Proof.
  cbv zeta. split; [reflexivity|]. split; [left; reflexivity|].
  exact (exit_after_busy_probe (k_attach (-16) 170 0 1 2 0) 1 3 []
           initial_globals
           {| gpio_reserved := [INT_GPIO_PIN]; irq_handlers := [];
              sinks_registered := [] |} eq_refl).
Defined.

(** X11: [mtl2_touchscreen_init] cannot fail.  Whatever the three kernel
    calls answer, a null adapter, a null client or an error from
    [i2c_add_driver] included, it returns 0; the adapter it was given is
    passed on to [i2c_new_device] unchecked and the client it was given is
    stored in [data.client] unchecked, the other globals staying as they
    were. *)
Theorem init_never_fails (k : kernel) (h : trace) (g : globals) :
  let run := mtl2_touchscreen_init k h g in
  result_of run = Some 0
  /\ data_input (globals_of run) = data_input g
  /\ mtl2_irq (globals_of run) = mtl2_irq g
  /\ exists adap status,
       emitted h run
       = [ printk "Inserting module." [];
           i2c_get_adapter 1 adap;
           i2c_new_device adap DEVICE_NAME DEVICE_ADDRESS
             (data_client (globals_of run));
           i2c_add_driver DEVICE_NAME status ]
       /\ adap = k_i2c_get_adapter k (h ++ [printk "Inserting module." []]) 1
       /\ data_client (globals_of run)
          = k_i2c_new_device k
              (h ++ [printk "Inserting module." []; i2c_get_adapter 1 adap])
              adap.
Proof.
  cbv zeta. rewrite mtl2_touchscreen_init_run. cbv zeta.
  rewrite emitted_app. repeat split.
  eexists. eexists. repeat split.
Qed.

Lemma emitted_of_trace {A} (x : A * globals * trace) (h evs : trace) :
  trace_of x = h ++ evs -> emitted h x = evs.
Proof.
  intros T. unfold emitted. rewrite T.
  rewrite skipn_app, skipn_all, Nat.sub_diag. reflexivity.
Qed.

(** The devices an event of the sampling path is addressed to. *)
Lemma irq_addresses (k : kernel) (irq : Z) (dev_id : handle)
    (h : trace) (g : globals) :
  Forall (fun e =>
            match e with
            | i2c_smbus_read_byte_data c _ _ => c = data_client g
            | input_report_abs d _ _ | input_report_key d _ _
            | input_sync d => d = data_input g
            | _ => True
            end)
    (emitted h (mtl2_touchscreen_irq k irq dev_id h g)).
Proof.
  rewrite mtl2_touchscreen_irq_run.
  destruct (episode_answers k h g) as [[[xh xl] yh] yl].
  cbv beta iota zeta. rewrite emitted_app. repeat constructor.
Qed.

(** X12: the handles flow through the globals from load to unload.  After
    [init], an attach without failure, one interrupt and [exit]: the bus
    reads of the interrupt go to the client that [i2c_new_device] answered
    and its reports to the device that attach allocated; [exit] disables
    the line that attach mapped, frees pin 4, unregisters that same device
    and that same client; and of what this run acquired, the pin is
    reserved and the device registered no more. *)
Theorem load_attach_touch_unload (k : kernel) (adapter : handle) (irq : Z)
    (dev_id : handle) (h : trace) (g : globals) :
  let r0 := mtl2_touchscreen_init k h g in
  let r1 := mtl2_touchscreen_probe k (data_client (globals_of r0)) adapter
              (trace_of r0) (globals_of r0) in
  let r2 := mtl2_touchscreen_irq k irq dev_id (trace_of r1) (globals_of r1) in
  let r3 := mtl2_touchscreen_exit (trace_of r2) (globals_of r2) in
  attach_failures (emitted (trace_of r0) r1) = [] ->
  exists adap client line input,
    In (i2c_new_device adap DEVICE_NAME DEVICE_ADDRESS client) (emitted h r0)
    /\ In (gpio_to_irq INT_GPIO_PIN line) (emitted (trace_of r0) r1)
    /\ In (devm_input_allocate_device input) (emitted (trace_of r0) r1)
    /\ In (input_set_parent input client) (emitted (trace_of r0) r1)
    /\ Forall (fun e =>
                 match e with
                 | i2c_smbus_read_byte_data c _ _ => c = client
                 | input_report_abs d _ _ | input_report_key d _ _
                 | input_sync d => d = input
                 | _ => True
                 end) (emitted (trace_of r1) r2)
    /\ emitted (trace_of r2) r3
       = [ printk "Removing module." [];
           disable_irq line;
           gpio_free INT_GPIO_PIN;
           input_unregister_device input;
           i2c_unregister_device client;
           i2c_del_driver DEVICE_NAME ]
    /\ gpio_reserved (held no_resources (emitted h r3)) = []
    /\ sinks_registered (held no_resources (emitted h r3)) = [].
Proof.
  intros r0 r1 r2 r3 F.
  pose proof (mtl2_touchscreen_init_run k h g) as E0. cbv zeta in E0.
  fold r0 in E0.
  set (adap := k_i2c_get_adapter k (h ++ [printk "Inserting module." []]) 1)
    in E0.
  set (client := k_i2c_new_device k _ adap) in E0.
  set (status := k_i2c_add_driver k _) in E0.
  destruct (probe_run_ok k (data_client (globals_of r0)) adapter
              (trace_of r0) (globals_of r0) F)
    as (line & func & input & Hl & Hf & Hn & E1).
  fold r1 in E1.
  pose proof (irq_addresses k irq dev_id (trace_of r1) (globals_of r1)) as A.
  fold r2 in A.
  pose proof (mtl2_touchscreen_irq_run k irq dev_id (trace_of r1)
                (globals_of r1)) as E2.
  fold r2 in E2.
  destruct (episode_answers k (trace_of r1) (globals_of r1))
    as [[[xh xl] yh] yl].
  cbv beta iota zeta in E2.
  pose proof (mtl2_touchscreen_exit_run (trace_of r2) (globals_of r2)) as E3.
  fold r3 in E3.
  assert (G0 : globals_of r0 = set_data_client g client) by now rewrite E0.
  assert (G1 : globals_of r1
               = {| data_client := client; data_input := input;
                    mtl2_irq := line |}) by (rewrite E1, G0; reflexivity).
  assert (G2 : globals_of r2 = globals_of r1) by now rewrite E2.
  exists adap, client, line, input.
  split; [rewrite E0, emitted_app; cbn; auto|].
  split; [rewrite E1, emitted_app; cbn; auto|].
  split; [rewrite E1, emitted_app; cbn; auto 10|].
  split; [rewrite E1, emitted_app, G0; cbn; auto 20|].
  split; [rewrite G1 in A; exact A|].
  split; [rewrite E3, emitted_app, G2, G1; reflexivity|].
  assert (T : trace_of r3
              = h ++ [ printk "Inserting module." [];
                       i2c_get_adapter 1 adap;
                       i2c_new_device adap DEVICE_NAME DEVICE_ADDRESS client;
                       i2c_add_driver DEVICE_NAME status;
                       gpio_request INT_GPIO_PIN 0;
                       gpio_to_irq INT_GPIO_PIN line;
                       printk "Mapped int %d\n" [line];
                       devm_request_irq line IRQF_TRIGGER_RISING "mtl2_irq" 0;
                       i2c_check_functionality I2C_FUNC_I2C func;
                       devm_input_allocate_device input;
                       input_set_name input "MTL2 Touchscreen";
                       input_set_bustype input BUS_I2C;
                       input_set_parent input client;
                       set_bit_propbit INPUT_PROP_DIRECT input;
                       input_set_capability input EV_KEY BTN_TOUCH;
                       input_set_abs_params input ABS_X 0 MTL2_MAX_X 0 0;
                       input_set_abs_params input ABS_Y 0 MTL2_MAX_Y 0 0;
                       input_set_drvdata input;
                       input_register_device input 0;
                       i2c_smbus_read_byte_data client TOUCH1_XH xh;
                       i2c_smbus_read_byte_data client TOUCH1_XL xl;
                       i2c_smbus_read_byte_data client TOUCH1_YH yh;
                       i2c_smbus_read_byte_data client TOUCH1_YL yl;
                       input_report_abs input ABS_X
                         (create_coord (u8 xh) (u8 xl));
                       input_report_abs input ABS_Y
                         (create_coord (u8 yh) (u8 yl));
                       input_report_key input BTN_TOUCH 1;
                       input_sync input;
                       printk "%d, %d\n"
                         [create_coord (u8 xh) (u8 xl);
                          create_coord (u8 yh) (u8 yl)];
                       printk "Removing module." [];
                       disable_irq line;
                       gpio_free INT_GPIO_PIN;
                       input_unregister_device input;
                       i2c_unregister_device client;
                       i2c_del_driver DEVICE_NAME ]).
  { rewrite E3. cbn [trace_of snd]. rewrite G2, G1.
    rewrite E2. cbn [trace_of snd]. rewrite G1.
    rewrite E1. cbn [trace_of snd]. rewrite G0.
    rewrite E0. cbn [trace_of snd].
    rewrite <- !app_assoc. reflexivity. }
  rewrite (emitted_of_trace _ _ _ T).
  unfold held, no_resources. cbn [fold_left account].
  cbn [Z.eqb gpio_reserved irq_handlers sinks_registered].
  unfold remove_Z. cbn [filter]. rewrite !Z.eqb_refl. cbn.
  split; reflexivity.
Qed.

Lemma load_attach_touch_unload_witness :
  let r0 := mtl2_touchscreen_init (k_ok 0) [] initial_globals in
  let r1 := mtl2_touchscreen_probe (k_ok 0) (data_client (globals_of r0)) 3
              (trace_of r0) (globals_of r0) in
  let r2 := mtl2_touchscreen_irq (k_ok 0) 170 NULL (trace_of r1)
              (globals_of r1) in
  let r3 := mtl2_touchscreen_exit (trace_of r2) (globals_of r2) in
  attach_failures (emitted (trace_of r0) r1) = []
  /\ exists line input client,
       emitted (trace_of r2) r3
       = [ printk "Removing module." [];
           disable_irq line;
           gpio_free INT_GPIO_PIN;
           input_unregister_device input;
           i2c_unregister_device client;
           i2c_del_driver DEVICE_NAME ]
       /\ gpio_reserved (held no_resources (emitted [] r3)) = []
       /\ sinks_registered (held no_resources (emitted [] r3)) = [].
Proof.
  cbv zeta. split; [reflexivity|].
  destruct (load_attach_touch_unload (k_ok 0) 3 170 NULL [] initial_globals
              eq_refl)
    as (adap & client & line & input & _ & _ & _ & _ & _ & E & P & S).
  exists line, input, client. exact (conj E (conj P S)).
Defined.
